(** * The beehive example of scarab-examples, embedded in Rocq

    Source: [scarab_examples/beehive/beehive.py].  The four entity classes
    ([Bee], [Beehive], [OutsideTemperature], [BeehiveDisplayModel]) are
    translated method by method.  The simulation engine (module [scarab]) is
    not part of the repository: an event handler is modelled as a function
    from the handler's arguments to a computation on the entity's own state.

    Conventions of the embedding:
    - a Python [int] is a [Z]; a dictionary is a stdpp [gmap];
    - the numbers the code calls "float" (temperatures, impacts) have a type
      [T] with the operations of [PyNum]; the code is written once and read
      at two instances, exact rationals [Q] and IEEE binary64 [float];
    - a method is a computation [Py S A]: it receives the object [self : S],
      and returns the mutated object together with either the exception that
      was raised or the returned value.  After a [raise] the mutations made
      before it are kept, as in Python;
    - [None] passed where a number is expected is [None : option _].

    Statements about all temperatures are proved in exact arithmetic; the
    values that the tests of the repository assert are also evaluated in
    binary64.  Methods generic in the number type are proved for every
    [PyNum]. *)

From Stdlib Require Import ZArith QArith Qabs Lqa Floats.PrimFloat Numbers.Cyclic.Int63.Uint63.
From Stdlib Require Import Qpower Qminmax.
From stdpp Require Import gmap strings list.

Set Default Proof Using "Type".
(* [set_solver] clears hypotheses that a goal may not have. *)
#[local] Set Warnings "-clear-no-such-hyp".
Local Open Scope Z_scope.

(** ** Python numbers *)

(** The operations on numbers that [beehive.py] uses.  [ltb a b] is
    [a < b]; [a > b] is read as [b < a].  [truthy x] is [bool(x)], what
    [assert x] tests.  [two_tenths] is the literal [.2]. *)
Class PyNum (T : Type) := {
  of_Z : Z -> T;
  add : T -> T -> T;
  sub : T -> T -> T;
  mul : T -> T -> T;
  div : T -> T -> T;
  ltb : T -> T -> bool;
  truthy : T -> bool;
  two_tenths : T
}.

(** [a > b] *)
Definition gtb {T} `{PyNum T} (a b : T) : bool := ltb b a.

(** [float(x)]: the numbers of the model already are of the type of floats. *)
Definition float_of {T} `{PyNum T} (x : T) : T := x.

(** Exact arithmetic: the idealised reading of Python's floats. *)
#[global] Instance Q_PyNum : PyNum Q := {|
  of_Z := inject_Z;
  add := Qplus;
  sub := Qminus;
  mul := Qmult;
  div := Qdiv;
  ltb := fun a b => negb (Qle_bool b a);
  truthy := fun a => negb (Qeq_bool a 0);
  two_tenths := (2 # 10)%Q
|}.

(** An [int] converted to binary64, for integers below [2^63] in absolute
    value (the conversion of the primitive is the rounding one). *)
Definition float_of_Z (z : Z) : float :=
  match z with
  | Z0 => PrimFloat.zero
  | Zpos _ => PrimFloat.of_uint63 (Uint63.of_Z z)
  | Zneg _ => PrimFloat.opp (PrimFloat.of_uint63 (Uint63.of_Z (- z)))
  end.

(** IEEE binary64, the arithmetic of CPython's [float]. *)
#[global] Instance float_PyNum : PyNum float := {|
  of_Z := float_of_Z;
  add := PrimFloat.add;
  sub := PrimFloat.sub;
  mul := PrimFloat.mul;
  div := PrimFloat.div;
  ltb := PrimFloat.ltb;
  truthy := fun a => negb (PrimFloat.eqb a PrimFloat.zero);
  two_tenths := 0x1.999999999999ap-3%float
|}.

(** ** Methods: state and exceptions *)

Inductive exn : Set :=
  | AssertionError
  | KeyError
  | IndexError
  | TypeError
  | ZeroDivisionError.

Definition Py (S A : Type) : Type := S -> (exn + A) * S.

Definition ret {S A} (a : A) : Py S A := fun s => (inr a, s).

Definition raise {S A} (e : exn) : Py S A := fun s => (inl e, s).

Definition bind {S A B} (m : Py S A) (k : A -> Py S B) : Py S B :=
  fun s =>
    match m s with
    | (inl e, s') => (inl e, s')
    | (inr a, s') => k a s'
    end.

Definition get {S} : Py S S := fun s => (inr s, s).

Definition py_assert {S} (b : bool) : Py S unit :=
  if b then ret tt else raise AssertionError.

Definition when {S} (b : bool) (m : Py S unit) : Py S unit :=
  if b then m else ret tt.

Declare Scope py_scope.
Delimit Scope py_scope with py.
Notation "x <- m ;; k" := (bind m (fun x => k))
  (at level 100, m at next level, k at level 200, right associativity) : py_scope.
Notation "m ;; k" := (bind m (fun _ => k))
  (at level 100, k at level 200, right associativity) : py_scope.

(** [x is not None] *)
Definition is_not_None {A} (x : option A) : bool :=
  match x with Some _ => true | None => false end.

(** The object after the method, and whether the method completed. *)
Definition state_of {S A} (r : (exn + A) * S) : S := snd r.
Definition raised {S A} (r : (exn + A) * S) : option exn :=
  match fst r with inl e => Some e | inr _ => None end.

(** ** Snapshots of remote entities

    The engine hands a handler a copy of the entity that was created,
    changed or destroyed (a [RemoteEntity]); the handlers read the
    properties below and nothing else. *)
Module Remote.
Record bee := { guid : Z; is_buzzing : bool; is_fanning : bool }.
Record beehive (T : Type) := { current_temp : T }.
Record outside_temperature (T : Type) := { temp_current_temp : T }.
Arguments current_temp {T} _.
Arguments temp_current_temp {T} _.
End Remote.

(** ** class Bee *)
Module Bee.
Section WithNum.
Context {T : Type} `{PyNum T}.

Record t := {
  buzz_temp : T;
  fan_temp : T;
  is_buzzing : bool;
  is_fanning : bool
}.

(** [assert x] for an argument that may be [None]. *)
Definition truthy_arg (x : option T) : bool :=
  match x with Some v => truthy v | None => false end.

(** [Bee.__init__(self, buzz_temp, fan_temp)]: the constructor either
    raises or returns the new object. *)
Definition __init__ (buzz_temp fan_temp : option T) : exn + t :=
  if negb (truthy_arg buzz_temp) then inl AssertionError
  else if negb (truthy_arg fan_temp) then inl AssertionError
  else
    match buzz_temp, fan_temp with
    | Some b, Some f =>
        inr {| buzz_temp := b; fan_temp := f;
               is_buzzing := false; is_fanning := false |}
    | _, _ => inl TypeError
    end.

Definition set_flags (buzzing fanning : bool) : Py t unit :=
  fun self => (inr tt, {| buzz_temp := buzz_temp self; fan_temp := fan_temp self;
                          is_buzzing := buzzing; is_fanning := fanning |}).

(** [Bee.handle_temperature_change(self, beehive, changed_properties)] *)
Definition handle_temperature_change
    (beehive : Remote.beehive T) (changed_properties : list string) : Py t unit :=
  (self <- get ;;
   if bool_decide ("current_temp"%string ∈ changed_properties) then
     let new_temp := Remote.current_temp beehive in
     if ltb new_temp (buzz_temp self) then set_flags true false
     else if gtb new_temp (fan_temp self) then set_flags false true
     else set_flags false false
   else ret tt)%py.
End WithNum.
Arguments t T : clear implicits.
End Bee.

(** [sum(l)] on a list of integers: from [0], left to right. *)
Definition py_sum (l : list Z) : Z := fold_left Z.add l 0.

(** ** class Beehive *)
Module Beehive.
Section WithNum.
Context {T : Type} `{PyNum T}.

Record t := {
  current_temp : T;
  _outside_temp : T;
  buzzing_impact : T;
  fanning_impact : T;
  number_bees : Z;
  number_bees_buzzing : Z;
  number_bees_fanning : Z;
  __known_bees : gmap Z Remote.bee
}.

(** Assignments to one attribute of [self]. *)
Definition set_current_temp (v : T) : Py t unit := fun self =>
  (inr tt, {| current_temp := v; _outside_temp := _outside_temp self;
              buzzing_impact := buzzing_impact self; fanning_impact := fanning_impact self;
              number_bees := number_bees self;
              number_bees_buzzing := number_bees_buzzing self;
              number_bees_fanning := number_bees_fanning self;
              __known_bees := __known_bees self |}).

Definition set_outside_temp (v : T) : Py t unit := fun self =>
  (inr tt, {| current_temp := current_temp self; _outside_temp := v;
              buzzing_impact := buzzing_impact self; fanning_impact := fanning_impact self;
              number_bees := number_bees self;
              number_bees_buzzing := number_bees_buzzing self;
              number_bees_fanning := number_bees_fanning self;
              __known_bees := __known_bees self |}).

Definition set_number_bees (v : Z) : Py t unit := fun self =>
  (inr tt, {| current_temp := current_temp self; _outside_temp := _outside_temp self;
              buzzing_impact := buzzing_impact self; fanning_impact := fanning_impact self;
              number_bees := v;
              number_bees_buzzing := number_bees_buzzing self;
              number_bees_fanning := number_bees_fanning self;
              __known_bees := __known_bees self |}).

Definition set_number_bees_buzzing (v : Z) : Py t unit := fun self =>
  (inr tt, {| current_temp := current_temp self; _outside_temp := _outside_temp self;
              buzzing_impact := buzzing_impact self; fanning_impact := fanning_impact self;
              number_bees := number_bees self;
              number_bees_buzzing := v;
              number_bees_fanning := number_bees_fanning self;
              __known_bees := __known_bees self |}).

Definition set_number_bees_fanning (v : Z) : Py t unit := fun self =>
  (inr tt, {| current_temp := current_temp self; _outside_temp := _outside_temp self;
              buzzing_impact := buzzing_impact self; fanning_impact := fanning_impact self;
              number_bees := number_bees self;
              number_bees_buzzing := number_bees_buzzing self;
              number_bees_fanning := v;
              __known_bees := __known_bees self |}).

Definition set_known_bees (v : gmap Z Remote.bee) : Py t unit := fun self =>
  (inr tt, {| current_temp := current_temp self; _outside_temp := _outside_temp self;
              buzzing_impact := buzzing_impact self; fanning_impact := fanning_impact self;
              number_bees := number_bees self;
              number_bees_buzzing := number_bees_buzzing self;
              number_bees_fanning := number_bees_fanning self;
              __known_bees := v |}).

(** [Beehive.__init__(self, start_temp, buzzing_impact, fanning_impact)] *)
Definition __init__ (start_temp buzzing_impact fanning_impact : T) : t :=
  {| current_temp := start_temp;
     _outside_temp := start_temp;
     buzzing_impact := buzzing_impact;
     fanning_impact := fanning_impact;
     number_bees := 0;
     number_bees_buzzing := 0;
     number_bees_fanning := 0;
     __known_bees := ∅ |}.

(** [self.__known_bees.values()] *)
Definition values (self : t) : list Remote.bee := (map_to_list (__known_bees self)).*2.

(** [sum([1 for b in self.__known_bees.values() if b.is_buzzing])] *)
Definition get_number_bees_buzzing (self : t) : Z :=
  py_sum ((fun _ => 1) <$> filter (fun b => Remote.is_buzzing b) (values self)).

(** [sum([1 for b in self.__known_bees.values() if b.is_fanning])] *)
Definition get_number_bees_fanning (self : t) : Z :=
  py_sum ((fun _ => 1) <$> filter (fun b => Remote.is_fanning b) (values self)).

(** [Beehive.handle_outside_temperature_update] *)
Definition handle_outside_temperature_update
    (outside_temperature : Remote.outside_temperature T)
    (changed_properties : list string) : Py t unit :=
  (py_assert (negb (bool_decide (changed_properties = []))) ;;
   set_outside_temp (Remote.temp_current_temp outside_temperature))%py.

(** [Beehive.handle_time_update(self, previous_time, new_time)].
    Comparing an [int] with [None] raises [TypeError]. *)
Definition handle_time_update (previous_time : option Z) (new_time : Z) : Py t unit :=
  match previous_time with
  | None => raise TypeError
  | Some previous_time =>
    (py_assert (previous_time <? new_time) ;;
     self <- get ;;
     let bee_impact :=
       sub (mul (of_Z (get_number_bees_buzzing self)) (buzzing_impact self))
           (mul (of_Z (get_number_bees_fanning self)) (fanning_impact self)) in
     let total_bee_impact := mul bee_impact (of_Z (new_time - previous_time)) in
     let outside_temp_impact :=
       if gtb (_outside_temp self) (current_temp self)
       then mul two_tenths (sub (_outside_temp self) (current_temp self))
       else mul two_tenths (sub (current_temp self) (_outside_temp self)) in
     set_current_temp
       (add (add (current_temp self) outside_temp_impact) total_bee_impact))%py
  end.

(** [Beehive.handle_new_bee(self, bee)] *)
Definition handle_new_bee (bee : Remote.bee) : Py t unit :=
  (self <- get ;;
   set_number_bees (number_bees self + 1) ;;
   set_known_bees (<[Remote.guid bee := bee]> (__known_bees self)) ;;
   when (Remote.is_fanning bee)
     (self <- get ;; set_number_bees_fanning (number_bees_fanning self + 1)) ;;
   when (Remote.is_buzzing bee)
     (self <- get ;; set_number_bees_buzzing (number_bees_buzzing self + 1)))%py.

(** [self.__known_bees.pop(guid)] *)
Definition pop_known_bee (guid : Z) : Py t Remote.bee :=
  (self <- get ;;
   match __known_bees self !! guid with
   | None => raise KeyError
   | Some b => (set_known_bees (delete guid (__known_bees self)) ;; ret b)
   end)%py.

(** [Beehive.handle_dead_bee(self, bee)] *)
Definition handle_dead_bee (bee : Remote.bee) : Py t unit :=
  (self <- get ;;
   set_number_bees (number_bees self - 1) ;;
   bee <- pop_known_bee (Remote.guid bee) ;;
   when (Remote.is_fanning bee)
     (self <- get ;; set_number_bees_fanning (number_bees_fanning self - 1)) ;;
   when (Remote.is_buzzing bee)
     (self <- get ;; set_number_bees_buzzing (number_bees_buzzing self - 1)))%py.

(** [self.__known_bees[guid]] *)
Definition known_bee (guid : Z) : Py t Remote.bee :=
  (self <- get ;;
   match __known_bees self !! guid with
   | None => raise KeyError
   | Some b => ret b
   end)%py.

(** [Beehive.handle_bee_update(self, bee, changed_properties)].  The
    snapshot [bee] is an object, hence true in [assert bee and ...]. *)
Definition handle_bee_update (bee : Remote.bee) (changed_properties : list string)
    : Py t unit :=
  (py_assert (true && negb (bool_decide (changed_properties = []))) ;;
   prev_bee <- known_bee (Remote.guid bee) ;;
   self <- get ;;
   set_known_bees (<[Remote.guid bee := bee]> (__known_bees self)) ;;
   when (Remote.is_fanning prev_bee && negb (Remote.is_fanning bee))
     (self <- get ;; set_number_bees_fanning (number_bees_fanning self - 1)) ;;
   when (Remote.is_fanning bee && negb (Remote.is_fanning prev_bee))
     (self <- get ;; set_number_bees_fanning (number_bees_fanning self + 1)) ;;
   when (Remote.is_buzzing prev_bee && negb (Remote.is_buzzing bee))
     (self <- get ;; set_number_bees_buzzing (number_bees_buzzing self - 1)) ;;
   when (Remote.is_buzzing bee && negb (Remote.is_buzzing prev_bee))
     (self <- get ;; set_number_bees_buzzing (number_bees_buzzing self + 1)))%py.

(** The notifications a [Beehive] subscribes to (its decorators), and
    their delivery, one after the other until one raises. *)
Inductive event :=
  | BeeCreated (bee : Remote.bee)
  | BeeDestroyed (bee : Remote.bee)
  | BeeChanged (bee : Remote.bee) (changed_properties : list string)
  | OutsideTemperatureChanged (outside_temperature : Remote.outside_temperature T)
                              (changed_properties : list string)
  | TimeUpdate (previous_time : option Z) (new_time : Z).

Definition deliver (e : event) : Py t unit :=
  match e with
  | BeeCreated bee => handle_new_bee bee
  | BeeDestroyed bee => handle_dead_bee bee
  | BeeChanged bee changed_properties => handle_bee_update bee changed_properties
  | OutsideTemperatureChanged temp changed_properties =>
      handle_outside_temperature_update temp changed_properties
  | TimeUpdate previous_time new_time => handle_time_update previous_time new_time
  end.

Fixpoint deliver_all (es : list event) : Py t unit :=
  match es with
  | [] => ret tt
  | e :: es => (deliver e ;; deliver_all es)%py
  end.
End WithNum.
Arguments t T : clear implicits.
Arguments event T : clear implicits.
End Beehive.

(** ** class OutsideTemperature *)
Module OutsideTemperature.
Section WithNum.
Context {T : Type} `{PyNum T}.

Record t := {
  min_temp : T;
  max_temp : T;
  __increment_change : T;
  __minute_temps : list T;
  current_temp : T
}.

Definition set_current_temp (v : T) : Py t unit := fun self =>
  (inr tt, {| min_temp := min_temp self; max_temp := max_temp self;
              __increment_change := __increment_change self;
              __minute_temps := __minute_temps self;
              current_temp := v |}).

(** [for minute in range(0, stop): temps.append(f(minute))] *)
Definition append_loop (f : Z -> T) (stop : Z) (temps : list T) : list T :=
  fold_left (fun temps minute => temps ++ [f minute]) (seqZ 0 stop) temps.

(** [OutsideTemperature.__init__(self, min_temp=50.0, max_temp=80.0)] *)
Definition __init__ (min_temp max_temp : option T) : exn + t :=
  match min_temp, max_temp with
  | Some min_temp, Some max_temp =>
      let min_temp := float_of min_temp in
      let max_temp := float_of max_temp in
      let increment_change :=
        div (sub max_temp min_temp) (div (of_Z (24 * 60)) (of_Z 2)) in
      let minute_temps := [] in
      let minute_temps :=
        append_loop (fun minute => add min_temp (mul increment_change (of_Z minute)))
                    (12 * 60) minute_temps in
      let minute_temps :=
        append_loop (fun minute => sub max_temp (mul increment_change (of_Z minute)))
                    (12 * 60) minute_temps in
      match minute_temps !! 0%nat with
      | Some first =>
          inr {| min_temp := min_temp; max_temp := max_temp;
                 __increment_change := increment_change;
                 __minute_temps := minute_temps;
                 current_temp := first |}
      | None => inl IndexError
      end
  | _, _ => inl AssertionError
  end.

(** [OutsideTemperature.handle_time_update(self, previous_time, new_time)].
      [%] is Python's: the result has the sign of the divisor, as [Z.modulo]. *)
Definition handle_time_update (previous_time : option Z) (new_time : Z) : Py t unit :=
  (py_assert (is_not_None previous_time) ;;
   self <- get ;;
   let len := Z.of_nat (length (__minute_temps self)) in
   if len =? 0 then raise ZeroDivisionError
   else
     match __minute_temps self !! Z.to_nat (new_time mod len) with
     | Some temp => set_current_temp temp
     | None => raise IndexError
     end)%py.
End WithNum.
Arguments t T : clear implicits.
End OutsideTemperature.

(** ** class BeehiveDisplayModel *)
Module BeehiveDisplayModel.
Section WithNum.
Context {T : Type} `{PyNum T}.

Record t := {
  beehive : option (Remote.beehive T);
  outside_temp : option T;
  min_outside_temp : T;
  max_outside_temp : T;
  min_hive_temp : T;
  max_hive_temp : T;
  min_number_bees : Z;
  max_number_bees : Z;
  min_number_bees_buzzing : Z;
  max_number_bees_buzzing : Z;
  min_number_bees_fanning : Z;
  max_number_bees_fanning : Z;
  previous_time : Z;
  new_time : Z
}.

(** [BeehiveDisplayModel.__init__(self)] *)
Definition __init__ : t :=
  {| beehive := None;
     outside_temp := None;
     min_outside_temp := of_Z 1000000;
     max_outside_temp := of_Z 0;
     min_hive_temp := of_Z 1000000;
     max_hive_temp := of_Z 0;
     min_number_bees := 1000000;
     max_number_bees := 0;
     min_number_bees_buzzing := 1000000;
     max_number_bees_buzzing := 0;
     min_number_bees_fanning := 1000000;
     max_number_bees_fanning := 0;
     previous_time := -1;
     new_time := 0 |}.

Definition set_times (previous new : Z) : Py t unit := fun self =>
  (inr tt, {| beehive := beehive self;
              outside_temp := outside_temp self;
              min_outside_temp := min_outside_temp self;
              max_outside_temp := max_outside_temp self;
              min_hive_temp := min_hive_temp self;
              max_hive_temp := max_hive_temp self;
              min_number_bees := min_number_bees self;
              max_number_bees := max_number_bees self;
              min_number_bees_buzzing := min_number_bees_buzzing self;
              max_number_bees_buzzing := max_number_bees_buzzing self;
              min_number_bees_fanning := min_number_bees_fanning self;
              max_number_bees_fanning := max_number_bees_fanning self;
              previous_time := previous;
              new_time := new |}).

(** [BeehiveDisplayModel.handle_time_update(self, previous_time, new_time)] *)
Definition handle_time_update (previous_time : option Z) (new_time : Z) : Py t unit :=
  (py_assert (is_not_None previous_time) ;;
   match previous_time with
   | Some previous_time => set_times previous_time new_time
   | None => raise TypeError
   end)%py.
End WithNum.
Arguments t T : clear implicits.
End BeehiveDisplayModel.

(** ** [min] and [max]

    [min(a, b)] is its first argument unless the second is smaller, and
    [max(a, b)] its first argument unless the second is greater. *)
Definition py_min {T} `{PyNum T} (a b : T) : T := if ltb b a then b else a.

Definition py_max {T} `{PyNum T} (a b : T) : T := if gtb b a then b else a.

Definition py_min_int (a b : Z) : Z := if b <? a then b else a.

Definition py_max_int (a b : Z) : Z := if b >? a then b else a.

(** [assert x] for a list that may be [None]. *)
Definition truthy_list {A} (x : option (list A)) : bool :=
  match x with Some (_ :: _) => true | _ => false end.

(** The snapshot of the hive that the display models read: the
    temperature and the three counters. *)
Module RemoteBeehive.
Record t (T : Type) := {
  current_temp : T;
  number_bees : Z;
  number_bees_fanning : Z;
  number_bees_buzzing : Z
}.
Arguments current_temp {T} _.
Arguments number_bees {T} _.
Arguments number_bees_fanning {T} _.
Arguments number_bees_buzzing {T} _.

(** The same snapshot as a bee reads it. *)
Definition as_seen_by_bees {T} (beehive : t T) : Remote.beehive T :=
  {| Remote.current_temp := current_temp beehive |}.
End RemoteBeehive.

(** ** class BeehiveDisplayModel: the handlers of changes

    The handlers work on the object of [BeehiveDisplayModel] above.  Its
    attribute [beehive] refers to the snapshot last received; the object of
    the model keeps the snapshot as a bee reads it, the counters of the
    snapshot being read by no method of the class. *)
Module DisplayHandlers.
Section WithNum.
Context {T : Type} `{PyNum T}.

Definition set_beehive (v : option (Remote.beehive T)) : Py (BeehiveDisplayModel.t T) unit := fun self =>
  (inr tt, {| BeehiveDisplayModel.beehive := v;
              BeehiveDisplayModel.outside_temp := BeehiveDisplayModel.outside_temp self;
              BeehiveDisplayModel.min_outside_temp := BeehiveDisplayModel.min_outside_temp self;
              BeehiveDisplayModel.max_outside_temp := BeehiveDisplayModel.max_outside_temp self;
              BeehiveDisplayModel.min_hive_temp := BeehiveDisplayModel.min_hive_temp self;
              BeehiveDisplayModel.max_hive_temp := BeehiveDisplayModel.max_hive_temp self;
              BeehiveDisplayModel.min_number_bees := BeehiveDisplayModel.min_number_bees self;
              BeehiveDisplayModel.max_number_bees := BeehiveDisplayModel.max_number_bees self;
              BeehiveDisplayModel.min_number_bees_buzzing := BeehiveDisplayModel.min_number_bees_buzzing self;
              BeehiveDisplayModel.max_number_bees_buzzing := BeehiveDisplayModel.max_number_bees_buzzing self;
              BeehiveDisplayModel.min_number_bees_fanning := BeehiveDisplayModel.min_number_bees_fanning self;
              BeehiveDisplayModel.max_number_bees_fanning := BeehiveDisplayModel.max_number_bees_fanning self;
              BeehiveDisplayModel.previous_time := BeehiveDisplayModel.previous_time self;
              BeehiveDisplayModel.new_time := BeehiveDisplayModel.new_time self |}).

Definition set_outside_temp (v : option T) : Py (BeehiveDisplayModel.t T) unit := fun self =>
  (inr tt, {| BeehiveDisplayModel.beehive := BeehiveDisplayModel.beehive self;
              BeehiveDisplayModel.outside_temp := v;
              BeehiveDisplayModel.min_outside_temp := BeehiveDisplayModel.min_outside_temp self;
              BeehiveDisplayModel.max_outside_temp := BeehiveDisplayModel.max_outside_temp self;
              BeehiveDisplayModel.min_hive_temp := BeehiveDisplayModel.min_hive_temp self;
              BeehiveDisplayModel.max_hive_temp := BeehiveDisplayModel.max_hive_temp self;
              BeehiveDisplayModel.min_number_bees := BeehiveDisplayModel.min_number_bees self;
              BeehiveDisplayModel.max_number_bees := BeehiveDisplayModel.max_number_bees self;
              BeehiveDisplayModel.min_number_bees_buzzing := BeehiveDisplayModel.min_number_bees_buzzing self;
              BeehiveDisplayModel.max_number_bees_buzzing := BeehiveDisplayModel.max_number_bees_buzzing self;
              BeehiveDisplayModel.min_number_bees_fanning := BeehiveDisplayModel.min_number_bees_fanning self;
              BeehiveDisplayModel.max_number_bees_fanning := BeehiveDisplayModel.max_number_bees_fanning self;
              BeehiveDisplayModel.previous_time := BeehiveDisplayModel.previous_time self;
              BeehiveDisplayModel.new_time := BeehiveDisplayModel.new_time self |}).

Definition set_min_outside_temp (v : T) : Py (BeehiveDisplayModel.t T) unit := fun self =>
  (inr tt, {| BeehiveDisplayModel.beehive := BeehiveDisplayModel.beehive self;
              BeehiveDisplayModel.outside_temp := BeehiveDisplayModel.outside_temp self;
              BeehiveDisplayModel.min_outside_temp := v;
              BeehiveDisplayModel.max_outside_temp := BeehiveDisplayModel.max_outside_temp self;
              BeehiveDisplayModel.min_hive_temp := BeehiveDisplayModel.min_hive_temp self;
              BeehiveDisplayModel.max_hive_temp := BeehiveDisplayModel.max_hive_temp self;
              BeehiveDisplayModel.min_number_bees := BeehiveDisplayModel.min_number_bees self;
              BeehiveDisplayModel.max_number_bees := BeehiveDisplayModel.max_number_bees self;
              BeehiveDisplayModel.min_number_bees_buzzing := BeehiveDisplayModel.min_number_bees_buzzing self;
              BeehiveDisplayModel.max_number_bees_buzzing := BeehiveDisplayModel.max_number_bees_buzzing self;
              BeehiveDisplayModel.min_number_bees_fanning := BeehiveDisplayModel.min_number_bees_fanning self;
              BeehiveDisplayModel.max_number_bees_fanning := BeehiveDisplayModel.max_number_bees_fanning self;
              BeehiveDisplayModel.previous_time := BeehiveDisplayModel.previous_time self;
              BeehiveDisplayModel.new_time := BeehiveDisplayModel.new_time self |}).

Definition set_max_outside_temp (v : T) : Py (BeehiveDisplayModel.t T) unit := fun self =>
  (inr tt, {| BeehiveDisplayModel.beehive := BeehiveDisplayModel.beehive self;
              BeehiveDisplayModel.outside_temp := BeehiveDisplayModel.outside_temp self;
              BeehiveDisplayModel.min_outside_temp := BeehiveDisplayModel.min_outside_temp self;
              BeehiveDisplayModel.max_outside_temp := v;
              BeehiveDisplayModel.min_hive_temp := BeehiveDisplayModel.min_hive_temp self;
              BeehiveDisplayModel.max_hive_temp := BeehiveDisplayModel.max_hive_temp self;
              BeehiveDisplayModel.min_number_bees := BeehiveDisplayModel.min_number_bees self;
              BeehiveDisplayModel.max_number_bees := BeehiveDisplayModel.max_number_bees self;
              BeehiveDisplayModel.min_number_bees_buzzing := BeehiveDisplayModel.min_number_bees_buzzing self;
              BeehiveDisplayModel.max_number_bees_buzzing := BeehiveDisplayModel.max_number_bees_buzzing self;
              BeehiveDisplayModel.min_number_bees_fanning := BeehiveDisplayModel.min_number_bees_fanning self;
              BeehiveDisplayModel.max_number_bees_fanning := BeehiveDisplayModel.max_number_bees_fanning self;
              BeehiveDisplayModel.previous_time := BeehiveDisplayModel.previous_time self;
              BeehiveDisplayModel.new_time := BeehiveDisplayModel.new_time self |}).

Definition set_min_hive_temp (v : T) : Py (BeehiveDisplayModel.t T) unit := fun self =>
  (inr tt, {| BeehiveDisplayModel.beehive := BeehiveDisplayModel.beehive self;
              BeehiveDisplayModel.outside_temp := BeehiveDisplayModel.outside_temp self;
              BeehiveDisplayModel.min_outside_temp := BeehiveDisplayModel.min_outside_temp self;
              BeehiveDisplayModel.max_outside_temp := BeehiveDisplayModel.max_outside_temp self;
              BeehiveDisplayModel.min_hive_temp := v;
              BeehiveDisplayModel.max_hive_temp := BeehiveDisplayModel.max_hive_temp self;
              BeehiveDisplayModel.min_number_bees := BeehiveDisplayModel.min_number_bees self;
              BeehiveDisplayModel.max_number_bees := BeehiveDisplayModel.max_number_bees self;
              BeehiveDisplayModel.min_number_bees_buzzing := BeehiveDisplayModel.min_number_bees_buzzing self;
              BeehiveDisplayModel.max_number_bees_buzzing := BeehiveDisplayModel.max_number_bees_buzzing self;
              BeehiveDisplayModel.min_number_bees_fanning := BeehiveDisplayModel.min_number_bees_fanning self;
              BeehiveDisplayModel.max_number_bees_fanning := BeehiveDisplayModel.max_number_bees_fanning self;
              BeehiveDisplayModel.previous_time := BeehiveDisplayModel.previous_time self;
              BeehiveDisplayModel.new_time := BeehiveDisplayModel.new_time self |}).

Definition set_max_hive_temp (v : T) : Py (BeehiveDisplayModel.t T) unit := fun self =>
  (inr tt, {| BeehiveDisplayModel.beehive := BeehiveDisplayModel.beehive self;
              BeehiveDisplayModel.outside_temp := BeehiveDisplayModel.outside_temp self;
              BeehiveDisplayModel.min_outside_temp := BeehiveDisplayModel.min_outside_temp self;
              BeehiveDisplayModel.max_outside_temp := BeehiveDisplayModel.max_outside_temp self;
              BeehiveDisplayModel.min_hive_temp := BeehiveDisplayModel.min_hive_temp self;
              BeehiveDisplayModel.max_hive_temp := v;
              BeehiveDisplayModel.min_number_bees := BeehiveDisplayModel.min_number_bees self;
              BeehiveDisplayModel.max_number_bees := BeehiveDisplayModel.max_number_bees self;
              BeehiveDisplayModel.min_number_bees_buzzing := BeehiveDisplayModel.min_number_bees_buzzing self;
              BeehiveDisplayModel.max_number_bees_buzzing := BeehiveDisplayModel.max_number_bees_buzzing self;
              BeehiveDisplayModel.min_number_bees_fanning := BeehiveDisplayModel.min_number_bees_fanning self;
              BeehiveDisplayModel.max_number_bees_fanning := BeehiveDisplayModel.max_number_bees_fanning self;
              BeehiveDisplayModel.previous_time := BeehiveDisplayModel.previous_time self;
              BeehiveDisplayModel.new_time := BeehiveDisplayModel.new_time self |}).

Definition set_min_number_bees (v : Z) : Py (BeehiveDisplayModel.t T) unit := fun self =>
  (inr tt, {| BeehiveDisplayModel.beehive := BeehiveDisplayModel.beehive self;
              BeehiveDisplayModel.outside_temp := BeehiveDisplayModel.outside_temp self;
              BeehiveDisplayModel.min_outside_temp := BeehiveDisplayModel.min_outside_temp self;
              BeehiveDisplayModel.max_outside_temp := BeehiveDisplayModel.max_outside_temp self;
              BeehiveDisplayModel.min_hive_temp := BeehiveDisplayModel.min_hive_temp self;
              BeehiveDisplayModel.max_hive_temp := BeehiveDisplayModel.max_hive_temp self;
              BeehiveDisplayModel.min_number_bees := v;
              BeehiveDisplayModel.max_number_bees := BeehiveDisplayModel.max_number_bees self;
              BeehiveDisplayModel.min_number_bees_buzzing := BeehiveDisplayModel.min_number_bees_buzzing self;
              BeehiveDisplayModel.max_number_bees_buzzing := BeehiveDisplayModel.max_number_bees_buzzing self;
              BeehiveDisplayModel.min_number_bees_fanning := BeehiveDisplayModel.min_number_bees_fanning self;
              BeehiveDisplayModel.max_number_bees_fanning := BeehiveDisplayModel.max_number_bees_fanning self;
              BeehiveDisplayModel.previous_time := BeehiveDisplayModel.previous_time self;
              BeehiveDisplayModel.new_time := BeehiveDisplayModel.new_time self |}).

Definition set_max_number_bees (v : Z) : Py (BeehiveDisplayModel.t T) unit := fun self =>
  (inr tt, {| BeehiveDisplayModel.beehive := BeehiveDisplayModel.beehive self;
              BeehiveDisplayModel.outside_temp := BeehiveDisplayModel.outside_temp self;
              BeehiveDisplayModel.min_outside_temp := BeehiveDisplayModel.min_outside_temp self;
              BeehiveDisplayModel.max_outside_temp := BeehiveDisplayModel.max_outside_temp self;
              BeehiveDisplayModel.min_hive_temp := BeehiveDisplayModel.min_hive_temp self;
              BeehiveDisplayModel.max_hive_temp := BeehiveDisplayModel.max_hive_temp self;
              BeehiveDisplayModel.min_number_bees := BeehiveDisplayModel.min_number_bees self;
              BeehiveDisplayModel.max_number_bees := v;
              BeehiveDisplayModel.min_number_bees_buzzing := BeehiveDisplayModel.min_number_bees_buzzing self;
              BeehiveDisplayModel.max_number_bees_buzzing := BeehiveDisplayModel.max_number_bees_buzzing self;
              BeehiveDisplayModel.min_number_bees_fanning := BeehiveDisplayModel.min_number_bees_fanning self;
              BeehiveDisplayModel.max_number_bees_fanning := BeehiveDisplayModel.max_number_bees_fanning self;
              BeehiveDisplayModel.previous_time := BeehiveDisplayModel.previous_time self;
              BeehiveDisplayModel.new_time := BeehiveDisplayModel.new_time self |}).

Definition set_min_number_bees_buzzing (v : Z) : Py (BeehiveDisplayModel.t T) unit := fun self =>
  (inr tt, {| BeehiveDisplayModel.beehive := BeehiveDisplayModel.beehive self;
              BeehiveDisplayModel.outside_temp := BeehiveDisplayModel.outside_temp self;
              BeehiveDisplayModel.min_outside_temp := BeehiveDisplayModel.min_outside_temp self;
              BeehiveDisplayModel.max_outside_temp := BeehiveDisplayModel.max_outside_temp self;
              BeehiveDisplayModel.min_hive_temp := BeehiveDisplayModel.min_hive_temp self;
              BeehiveDisplayModel.max_hive_temp := BeehiveDisplayModel.max_hive_temp self;
              BeehiveDisplayModel.min_number_bees := BeehiveDisplayModel.min_number_bees self;
              BeehiveDisplayModel.max_number_bees := BeehiveDisplayModel.max_number_bees self;
              BeehiveDisplayModel.min_number_bees_buzzing := v;
              BeehiveDisplayModel.max_number_bees_buzzing := BeehiveDisplayModel.max_number_bees_buzzing self;
              BeehiveDisplayModel.min_number_bees_fanning := BeehiveDisplayModel.min_number_bees_fanning self;
              BeehiveDisplayModel.max_number_bees_fanning := BeehiveDisplayModel.max_number_bees_fanning self;
              BeehiveDisplayModel.previous_time := BeehiveDisplayModel.previous_time self;
              BeehiveDisplayModel.new_time := BeehiveDisplayModel.new_time self |}).

Definition set_max_number_bees_buzzing (v : Z) : Py (BeehiveDisplayModel.t T) unit := fun self =>
  (inr tt, {| BeehiveDisplayModel.beehive := BeehiveDisplayModel.beehive self;
              BeehiveDisplayModel.outside_temp := BeehiveDisplayModel.outside_temp self;
              BeehiveDisplayModel.min_outside_temp := BeehiveDisplayModel.min_outside_temp self;
              BeehiveDisplayModel.max_outside_temp := BeehiveDisplayModel.max_outside_temp self;
              BeehiveDisplayModel.min_hive_temp := BeehiveDisplayModel.min_hive_temp self;
              BeehiveDisplayModel.max_hive_temp := BeehiveDisplayModel.max_hive_temp self;
              BeehiveDisplayModel.min_number_bees := BeehiveDisplayModel.min_number_bees self;
              BeehiveDisplayModel.max_number_bees := BeehiveDisplayModel.max_number_bees self;
              BeehiveDisplayModel.min_number_bees_buzzing := BeehiveDisplayModel.min_number_bees_buzzing self;
              BeehiveDisplayModel.max_number_bees_buzzing := v;
              BeehiveDisplayModel.min_number_bees_fanning := BeehiveDisplayModel.min_number_bees_fanning self;
              BeehiveDisplayModel.max_number_bees_fanning := BeehiveDisplayModel.max_number_bees_fanning self;
              BeehiveDisplayModel.previous_time := BeehiveDisplayModel.previous_time self;
              BeehiveDisplayModel.new_time := BeehiveDisplayModel.new_time self |}).

Definition set_min_number_bees_fanning (v : Z) : Py (BeehiveDisplayModel.t T) unit := fun self =>
  (inr tt, {| BeehiveDisplayModel.beehive := BeehiveDisplayModel.beehive self;
              BeehiveDisplayModel.outside_temp := BeehiveDisplayModel.outside_temp self;
              BeehiveDisplayModel.min_outside_temp := BeehiveDisplayModel.min_outside_temp self;
              BeehiveDisplayModel.max_outside_temp := BeehiveDisplayModel.max_outside_temp self;
              BeehiveDisplayModel.min_hive_temp := BeehiveDisplayModel.min_hive_temp self;
              BeehiveDisplayModel.max_hive_temp := BeehiveDisplayModel.max_hive_temp self;
              BeehiveDisplayModel.min_number_bees := BeehiveDisplayModel.min_number_bees self;
              BeehiveDisplayModel.max_number_bees := BeehiveDisplayModel.max_number_bees self;
              BeehiveDisplayModel.min_number_bees_buzzing := BeehiveDisplayModel.min_number_bees_buzzing self;
              BeehiveDisplayModel.max_number_bees_buzzing := BeehiveDisplayModel.max_number_bees_buzzing self;
              BeehiveDisplayModel.min_number_bees_fanning := v;
              BeehiveDisplayModel.max_number_bees_fanning := BeehiveDisplayModel.max_number_bees_fanning self;
              BeehiveDisplayModel.previous_time := BeehiveDisplayModel.previous_time self;
              BeehiveDisplayModel.new_time := BeehiveDisplayModel.new_time self |}).

Definition set_max_number_bees_fanning (v : Z) : Py (BeehiveDisplayModel.t T) unit := fun self =>
  (inr tt, {| BeehiveDisplayModel.beehive := BeehiveDisplayModel.beehive self;
              BeehiveDisplayModel.outside_temp := BeehiveDisplayModel.outside_temp self;
              BeehiveDisplayModel.min_outside_temp := BeehiveDisplayModel.min_outside_temp self;
              BeehiveDisplayModel.max_outside_temp := BeehiveDisplayModel.max_outside_temp self;
              BeehiveDisplayModel.min_hive_temp := BeehiveDisplayModel.min_hive_temp self;
              BeehiveDisplayModel.max_hive_temp := BeehiveDisplayModel.max_hive_temp self;
              BeehiveDisplayModel.min_number_bees := BeehiveDisplayModel.min_number_bees self;
              BeehiveDisplayModel.max_number_bees := BeehiveDisplayModel.max_number_bees self;
              BeehiveDisplayModel.min_number_bees_buzzing := BeehiveDisplayModel.min_number_bees_buzzing self;
              BeehiveDisplayModel.max_number_bees_buzzing := BeehiveDisplayModel.max_number_bees_buzzing self;
              BeehiveDisplayModel.min_number_bees_fanning := BeehiveDisplayModel.min_number_bees_fanning self;
              BeehiveDisplayModel.max_number_bees_fanning := v;
              BeehiveDisplayModel.previous_time := BeehiveDisplayModel.previous_time self;
              BeehiveDisplayModel.new_time := BeehiveDisplayModel.new_time self |}).

(** [BeehiveDisplayModel.handle_beehive_changed(self, beehive, changed_properties)] *)
Definition handle_beehive_changed
    (beehive : RemoteBeehive.t T) (changed_properties : option (list string))
    : Py (BeehiveDisplayModel.t T) unit :=
  (py_assert (is_not_None changed_properties) ;;
   set_beehive (Some (RemoteBeehive.as_seen_by_bees beehive)) ;;
   self <- get ;;
   set_min_hive_temp
     (py_min (BeehiveDisplayModel.min_hive_temp self) (RemoteBeehive.current_temp beehive)) ;;
   self <- get ;;
   set_max_hive_temp
     (py_max (BeehiveDisplayModel.max_hive_temp self) (RemoteBeehive.current_temp beehive)) ;;
   self <- get ;;
   set_min_number_bees
     (py_min_int (BeehiveDisplayModel.min_number_bees self)
                 (RemoteBeehive.number_bees beehive)) ;;
   self <- get ;;
   set_max_number_bees
     (py_max_int (BeehiveDisplayModel.max_number_bees self)
                 (RemoteBeehive.number_bees beehive)) ;;
   self <- get ;;
   set_min_number_bees_fanning
     (py_min_int (BeehiveDisplayModel.min_number_bees_fanning self)
                 (RemoteBeehive.number_bees_fanning beehive)) ;;
   self <- get ;;
   set_max_number_bees_fanning
     (py_max_int (BeehiveDisplayModel.max_number_bees_fanning self)
                 (RemoteBeehive.number_bees_fanning beehive)) ;;
   self <- get ;;
   set_min_number_bees_buzzing
     (py_min_int (BeehiveDisplayModel.min_number_bees_buzzing self)
                 (RemoteBeehive.number_bees_buzzing beehive)) ;;
   self <- get ;;
   set_max_number_bees_buzzing
     (py_max_int (BeehiveDisplayModel.max_number_bees_buzzing self)
                 (RemoteBeehive.number_bees_buzzing beehive)))%py.

(** [BeehiveDisplayModel.handle_temp_changed(self, temp, changed_properties)].
    The bounds are computed from [self.outside_temp], just assigned;
    comparing [None] with a number raises [TypeError]. *)
Definition handle_temp_changed
    (temp : Remote.outside_temperature T) (changed_properties : option (list string))
    : Py (BeehiveDisplayModel.t T) unit :=
  (py_assert (truthy_list changed_properties) ;;
   set_outside_temp (Some (Remote.temp_current_temp temp)) ;;
   self <- get ;;
   match BeehiveDisplayModel.outside_temp self with
   | None => raise TypeError
   | Some outside_temp =>
       (set_min_outside_temp
          (py_min (BeehiveDisplayModel.min_outside_temp self) outside_temp) ;;
        self <- get ;;
        set_max_outside_temp
          (py_max (BeehiveDisplayModel.max_outside_temp self) outside_temp))
   end)%py.

(** The notifications a display model subscribes to, and their delivery. *)
Inductive event :=
  | BeehiveChanged (beehive : RemoteBeehive.t T) (changed_properties : option (list string))
  | TempChanged (temp : Remote.outside_temperature T)
                (changed_properties : option (list string))
  | TimeUpdate (previous_time : option Z) (new_time : Z).

Definition deliver (e : event) : Py (BeehiveDisplayModel.t T) unit :=
  match e with
  | BeehiveChanged beehive changed_properties =>
      handle_beehive_changed beehive changed_properties
  | TempChanged temp changed_properties => handle_temp_changed temp changed_properties
  | TimeUpdate previous_time new_time =>
      BeehiveDisplayModel.handle_time_update previous_time new_time
  end.

Fixpoint deliver_all (es : list event) : Py (BeehiveDisplayModel.t T) unit :=
  match es with
  | [] => ret tt
  | e :: es => (deliver e ;; deliver_all es)%py
  end.
End WithNum.
Arguments event T : clear implicits.
End DisplayHandlers.

(** ** cli_beehive.py: the stepping loop of [BeehiveApp.main]

    The simulation engine is not part of the repository: the loop is
    modelled by the calls it makes, in order. *)
Module BeehiveApp.

(** [range(start, stop, step)] for a positive [step]: [start],
    [start + step], ... below [stop]. *)
Definition py_range (start stop step : Z) : list Z :=
  let len := if start <? stop then (stop - start - 1) / step + 1 else 0 in
  (fun i => start + step * i) <$> seqZ 0 len.

Inductive call :=
  | advance_and_wait (steps : Z)
  | update_display.

(** The loop at the end of [main]:
    [for step in range(1, args.max_steps, step_size)]. *)
Definition main_loop (max_steps : Z) : list call :=
  let step_size := 100 in
  fold_left
    (fun calls step => calls ++ [advance_and_wait step_size; update_display])
    (py_range 1 max_steps step_size) [].
End BeehiveApp.

(** ** qt_beehive.py: class MainWindow, the two buttons

    Of the window the slots read and write the text of
    [start_pause_button]; what they do besides (printing, the calls on the
    simulation and on the window) is recorded in order. *)
Module MainWindow.

Inductive effect :=
  | print (s : string)
  | _create_simulation
  | simulation_advance
  | simulation_pause
  | simulation_shutdown
  | close.

Record t := {
  start_pause_button_text : string;
  effects : list effect
}.

(** The window as [__init__] leaves it: [_create_widgets] labels the
    button ["Start"]. *)
Definition __init__ : t :=
  {| start_pause_button_text := "Start"; effects := [] |}.

(** [self.start_pause_button.setText(s)] *)
Definition setText (s : string) (self : t) : t :=
  {| start_pause_button_text := s; effects := effects self |}.

Definition perform (e : effect) (self : t) : t :=
  {| start_pause_button_text := start_pause_button_text self;
     effects := effects self ++ [e] |}.

(** [MainWindow.start_pause_button_clicked(self)] *)
Definition start_pause_button_clicked (self : t) : t :=
  let button_text := start_pause_button_text self in
  if String.eqb button_text "Start" then
    let self := perform (print "Starting the simulation.") self in
    let self := setText "Pause" self in
    let self := perform _create_simulation self in
    perform simulation_advance self
  else if String.eqb button_text "Pause" then
    let self := perform (print "Pausing the simulation.") self in
    let self := setText "Resume" self in
    perform simulation_pause self
  else if String.eqb button_text "Resume" then
    let self := perform (print "Resuming the simulation.") self in
    let self := setText "Pause" self in
    perform simulation_advance self
  else
    perform (print "Unknown state - not doing anything.") self.

(** [MainWindow.exit_button_clicked(self)] *)
Definition exit_button_clicked (self : t) : t :=
  let self := perform (print "Exiting") self in
  let self := perform simulation_shutdown self in
  perform close self.
End MainWindow.

(** * Vocabulary of the statements *)

(** A threshold that [assert] refuses: [None], or zero. *)
Definition missing_or_zero (x : option Q) : Prop :=
  match x with None => True | Some v => (v == 0)%Q end.

(** The number of snapshots in a mapping whose flag [flag] is set. *)
Definition count_flag (flag : Remote.bee -> bool) (bees : gmap Z Remote.bee) : Z :=
  Z.of_nat (length (filter (fun b => flag b) (map_to_list bees).*2)).

(** What a flag adds to its counter. *)
Definition flag_value (b : bool) : Z := if b then 1 else 0.

(** The bees of the tests: identifiers 1 to 4. *)
Definition buzzing_bee (guid : Z) : Remote.bee :=
  {| Remote.guid := guid; Remote.is_buzzing := true; Remote.is_fanning := false |}.

Definition fanning_bee (guid : Z) : Remote.bee :=
  {| Remote.guid := guid; Remote.is_buzzing := false; Remote.is_fanning := true |}.

Section Vocabulary.
Context {T : Type} `{PyNum T}.

(** The sample that [__init__] stores for minute [i] of the day. *)
Definition sample (min_temp max_temp : T) (i : Z) : T :=
  let increment_change :=
    div (sub max_temp min_temp) (div (of_Z (24 * 60)) (of_Z 2)) in
  if i <? 720 then add min_temp (mul increment_change (of_Z i))
  else sub max_temp (mul increment_change (of_Z (i - 720))).

(** Time-advance notifications delivered one after the other, each given
    as [(previous_time, new_time)]. *)
Definition advance (ot : OutsideTemperature.t T) (updates : list (Z * Z))
    : OutsideTemperature.t T :=
  fold_left
    (fun ot u => state_of (OutsideTemperature.handle_time_update (Some (fst u)) (snd u) ot))
    updates ot.

(** The two edge-triggered counters agree with a recount. *)
Definition counters_agree (hive : Beehive.t T) : Prop :=
  Beehive.number_bees_buzzing hive = Beehive.get_number_bees_buzzing hive /\
  Beehive.number_bees_fanning hive = Beehive.get_number_bees_fanning hive.

(** The numbers of bee-created and bee-destroyed notifications of a sequence. *)
Fixpoint creates (es : list (Beehive.event T)) : Z :=
  match es with
  | [] => 0
  | Beehive.BeeCreated _ :: es => 1 + creates es
  | _ :: es => creates es
  end.

Fixpoint destroys (es : list (Beehive.event T)) : Z :=
  match es with
  | [] => 0
  | Beehive.BeeDestroyed _ :: es => 1 + destroys es
  | _ :: es => destroys es
  end.

(** The identifiers that a sequence delivers in bee-created notifications. *)
Fixpoint created_guids (es : list (Beehive.event T)) : gset Z :=
  match es with
  | [] => ∅
  | Beehive.BeeCreated bee :: es => {[Remote.guid bee]} ∪ created_guids es
  | _ :: es => created_guids es
  end.


(** The sequences the engine is expected to deliver, [tracked] being the
    identifiers of the bees alive at the start: a bee is created under an
    identifier that no living bee has, destroyed or changed only while alive,
    a change names at least one property, and the time increases. *)
Fixpoint sequenced (tracked : gset Z) (es : list (Beehive.event T)) : bool :=
  match es with
  | [] => true
  | Beehive.BeeCreated bee :: es =>
      bool_decide (Remote.guid bee ∉ tracked)
      && sequenced ({[Remote.guid bee]} ∪ tracked) es
  | Beehive.BeeDestroyed bee :: es =>
      bool_decide (Remote.guid bee ∈ tracked)
      && sequenced (tracked ∖ {[Remote.guid bee]}) es
  | Beehive.BeeChanged bee changed_properties :: es =>
      bool_decide (Remote.guid bee ∈ tracked)
      && negb (bool_decide (changed_properties = []))
      && sequenced tracked es
  | Beehive.OutsideTemperatureChanged _ changed_properties :: es =>
      negb (bool_decide (changed_properties = [])) && sequenced tracked es
  | Beehive.TimeUpdate previous_time new_time :: es =>
      match previous_time with
      | Some previous_time => previous_time <? new_time
      | None => false
      end && sequenced tracked es
  end.

(** The hive of [test_time_update]: three buzzing bees and one fanning bee
    created in a hive [Beehive(start_temp, buzzing_impact, fanning_impact)]. *)
Definition test_hive (start_temp buzzing_impact fanning_impact : T) : Beehive.t T :=
  state_of
    (Beehive.deliver_all
       [Beehive.BeeCreated (buzzing_bee 1); Beehive.BeeCreated (buzzing_bee 2);
        Beehive.BeeCreated (buzzing_bee 3); Beehive.BeeCreated (fanning_bee 4)]
       (Beehive.__init__ start_temp buzzing_impact fanning_impact)).

(** The hive after a time advance of one minute from [previous_time]. *)
Definition one_minute (previous_time : Z) (hive : Beehive.t T) : Beehive.t T :=
  state_of (Beehive.handle_time_update (Some previous_time) (previous_time + 1) hive).

End Vocabulary.

(** * Vocabulary of the further statements *)

Section MoreVocabulary.
Context {T : Type} `{PyNum T}.

(** The flags that a hive temperature [t] gives a bee with the bounds
    [buzz_temp] and [fan_temp], as [(is_buzzing, is_fanning)]. *)
Definition bee_flags (buzz_temp fan_temp t : T) : bool * bool :=
  if ltb t buzz_temp then (true, false)
  else if gtb t fan_temp then (false, true)
  else (false, false).

(** Hive notifications delivered to a bee one after the other, each given
    as [(beehive, changed_properties)]. *)
Definition notify_all (bee : Bee.t T) (ns : list (Remote.beehive T * list string)) : Bee.t T :=
  fold_left
    (fun bee n => state_of (Bee.handle_temperature_change (fst n) (snd n) bee))
    ns bee.

(** The temperature of the last notification that names [current_temp],
    [seen] when there is none. *)
Definition last_temperature (seen : option T) (ns : list (Remote.beehive T * list string))
    : option T :=
  fold_left
    (fun seen n =>
       if bool_decide ("current_temp"%string ∈ snd n)
       then Some (Remote.current_temp (fst n)) else seen)
    ns seen.

(** [number_bees] is the number of tracked bees. *)
Definition counts_tracked (hive : Beehive.t T) : Prop :=
  Beehive.number_bees hive = Z.of_nat (size (Beehive.__known_bees hive)).

(** Time advances delivered to a hive one after the other, each given as
    [(previous_time, new_time)]. *)
Definition advance_hive (hive : Beehive.t T) (steps : list (Z * Z)) : Beehive.t T :=
  fold_left
    (fun hive s => state_of (Beehive.handle_time_update (Some (fst s)) (snd s) hive))
    steps hive.

End MoreVocabulary.

(** Each time advance has its new time after its previous time. *)
Definition increasing (steps : list (Z * Z)) : bool :=
  forallb (fun s => fst s <? snd s) steps.

(** ** Vocabulary of the statements on the display model *)

Section DisplayVocabulary.
Context {T : Type} `{PyNum T}.

(** The hive snapshots that a sequence of notifications carries, in
    order. *)
Definition hive_snapshots (es : list (DisplayHandlers.event T)) : list (RemoteBeehive.t T) :=
  flat_map
    (fun e => match e with DisplayHandlers.BeehiveChanged beehive _ => [beehive] | _ => [] end)
    es.

(** The outside temperatures that a sequence of notifications carries, in
    order. *)
Definition outside_readings (es : list (DisplayHandlers.event T)) : list T :=
  flat_map
    (fun e =>
       match e with
       | DisplayHandlers.TempChanged temp _ => [Remote.temp_current_temp temp]
       | _ => []
       end)
    es.

(** The arguments of a notification pass the assertion of its handler: the
    list of changed properties of a hive change is not [None], the one of an
    outside temperature change is neither [None] nor empty, the previous
    time of a time advance is not [None]. *)
Definition passes_assertion (e : DisplayHandlers.event T) : bool :=
  match e with
  | DisplayHandlers.BeehiveChanged _ changed_properties => is_not_None changed_properties
  | DisplayHandlers.TempChanged _ changed_properties => truthy_list changed_properties
  | DisplayHandlers.TimeUpdate previous_time _ => is_not_None previous_time
  end.

(** The notifications up to the first one that does not pass. *)
Fixpoint handled (es : list (DisplayHandlers.event T)) : list (DisplayHandlers.event T) :=
  match es with
  | [] => []
  | e :: es => if passes_assertion e then e :: handled es else []
  end.

End DisplayVocabulary.

(** [lo] and [hi] are a pair of bounds kept over the readings [xs] from the
    starting bounds [lo0] and [hi0]: they are no tighter than the starting
    bounds, every reading lies between them, and each of them is its
    starting bound or one of the readings. *)
Definition tracks_extremes {A} (le : A -> A -> Prop) (lo0 hi0 : A) (xs : list A) (lo hi : A)
    : Prop :=
  le lo lo0 /\ le hi0 hi /\
  (forall x, In x xs -> le lo x /\ le x hi) /\
  In lo (lo0 :: xs) /\ In hi (hi0 :: xs).

(** [m] is the greatest, or the least, of the readings [xs]. *)
Definition greatest (xs : list Q) (m : Q) : Prop :=
  (exists y, In y xs /\ (m == y)%Q) /\ forall x, In x xs -> (x <= m)%Q.

Definition least (xs : list Q) (m : Q) : Prop :=
  (exists y, In y xs /\ (m == y)%Q) /\ forall x, In x xs -> (m <= x)%Q.

(** ** Vocabulary of the statements on the two applications *)

(** The steps that a sequence of calls asks the simulation to advance. *)
Definition steps_requested (calls : list BeehiveApp.call) : Z :=
  fold_left
    (fun total c =>
       match c with
       | BeehiveApp.advance_and_wait steps => total + steps
       | BeehiveApp.update_display => total
       end)
    calls 0.

(** [n] rounds of one advance of [steps] steps followed by one update of
    the display. *)
Fixpoint rounds (n : nat) (steps : Z) : list BeehiveApp.call :=
  match n with
  | O => []
  | S n => rounds n steps ++ [BeehiveApp.advance_and_wait steps; BeehiveApp.update_display]
  end.

(** [n] clicks on the start/pause button. *)
Fixpoint clicks (n : nat) (window : MainWindow.t) : MainWindow.t :=
  match n with
  | O => window
  | S n => MainWindow.start_pause_button_clicked (clicks n window)
  end.

(** The effects other than printing. *)
Definition calls_made (window : MainWindow.t) : list MainWindow.effect :=
  List.filter (fun e => match e with MainWindow.print _ => false | _ => true end)
              (MainWindow.effects window).

(** [n] calls on the simulation, [advance] and [pause] in turn, [advance]
    first. *)
Fixpoint alternating (n : nat) : list MainWindow.effect :=
  match n with
  | O => []
  | S n => alternating n
           ++ [if Nat.even n then MainWindow.simulation_advance
               else MainWindow.simulation_pause]
  end.

(** * Properties *)

(** ** Exact arithmetic: the comparisons of [Q_PyNum] *)

Lemma Q_ltb_lt (a b : Q) : ltb a b = true <-> (a < b)%Q.
Proof.
  cbn. rewrite negb_true_iff. split.
  - intros Hle. apply Qnot_le_lt. intros Hba.
    apply Qle_bool_iff in Hba. congruence.
  - intros Hlt. destruct (Qle_bool b a) eqn:E; [|reflexivity].
    apply Qle_bool_iff in E. exfalso. apply (Qlt_not_le _ _ Hlt E).
Qed.

Lemma Q_ltb_ge (a b : Q) : ltb a b = false <-> (b <= a)%Q.
Proof.
  cbn. rewrite negb_false_iff. apply Qle_bool_iff.
Qed.

Lemma Q_truthy_nonzero (a : Q) : truthy a = true <-> ~ (a == 0)%Q.
Proof.
  cbn. rewrite negb_true_iff. split.
  - intros E Hz. apply Qeq_bool_iff in Hz. congruence.
  - intros Hnz. destruct (Qeq_bool a 0) eqn:E; [|reflexivity].
    apply Qeq_bool_iff in E. contradiction.
Qed.

(** ** Bee *)

(** C8, the claim as stated fails: a bee whose fan threshold is below its
    buzz threshold is constructed without error. *)
Lemma Bee_init_accepts_inverted_bounds :
  exists bee : Bee.t Q,
    Bee.__init__ (Some (100 # 1)%Q) (Some (32 # 1)%Q) = inr bee /\
    (Bee.fan_temp bee < Bee.buzz_temp bee)%Q.
Proof.
  eexists. split; [reflexivity|]. reflexivity.
Qed.

(** C8, amended: constructing a bee fails exactly when a threshold is missing
    or zero, with an [AssertionError]; a constructed bee carries the two
    thresholds as given, in whatever order they are, and neither buzzes nor
    fans. *)
Theorem Bee_init_failure_modes (buzz_temp fan_temp : option Q) :
  match Bee.__init__ buzz_temp fan_temp with
  | inr bee =>
      exists b f, buzz_temp = Some b /\ fan_temp = Some f /\
        ~ (b == 0)%Q /\ ~ (f == 0)%Q /\
        bee = {| Bee.buzz_temp := b; Bee.fan_temp := f;
                 Bee.is_buzzing := false; Bee.is_fanning := false |}
  | inl e =>
      e = AssertionError /\ (missing_or_zero buzz_temp \/ missing_or_zero fan_temp)
  end.
Proof.
  unfold Bee.__init__, Bee.truthy_arg.
  destruct buzz_temp as [b|]; [|cbn; auto].
  destruct (truthy b) eqn:Eb; cbn [negb].
  - destruct fan_temp as [f|]; [|cbn; auto].
    destruct (truthy f) eqn:Ef; cbn [negb].
    + exists b, f. apply Q_truthy_nonzero in Eb, Ef. auto.
    + split; [reflexivity|]. right. cbn.
      destruct (Qeq_dec f 0) as [Hz|Hnz]; [exact Hz|].
      apply Q_truthy_nonzero in Hnz. congruence.
  - split; [reflexivity|]. left. cbn.
    destruct (Qeq_dec b 0) as [Hz|Hnz]; [exact Hz|].
    apply Q_truthy_nonzero in Hnz. congruence.
Qed.

(** C4, the claim as stated fails: the bee of [Bee(100, 32)] at hive
    temperature 50, above its fan threshold, ends buzzing. *)
Lemma bee_above_fan_temp_ends_buzzing :
  exists bee : Bee.t Q,
    Bee.__init__ (Some (100 # 1)%Q) (Some (32 # 1)%Q) = inr bee /\
    (Bee.fan_temp bee < 50 # 1)%Q /\
    Bee.is_buzzing
      (state_of (Bee.handle_temperature_change
                   {| Remote.current_temp := (50 # 1)%Q |} ["current_temp"%string] bee))
      = true /\
    Bee.is_fanning
      (state_of (Bee.handle_temperature_change
                   {| Remote.current_temp := (50 # 1)%Q |} ["current_temp"%string] bee))
      = false.
Proof.
  eexists. split; [reflexivity|]. split; [reflexivity|]. split; reflexivity.
Qed.

(** C4, amended: a hive-temperature change to [t] never raises, keeps the
    bounds [(b, f)], and leaves the bee idle when [b < t < f], buzzing and not
    fanning when [t < b], fanning and not buzzing when [t > f] and [b <= t]
    (the buzz test comes first); the flags after the change are those of any
    bee with the same bounds, whatever its flags were, and are never both
    set. *)
Theorem bee_temperature_classification
    (bee : Bee.t Q) (hive : Remote.beehive Q) (changed_properties : list string) :
  "current_temp"%string ∈ changed_properties ->
  let t := Remote.current_temp hive in
  let b := Bee.buzz_temp bee in
  let f := Bee.fan_temp bee in
  let r := Bee.handle_temperature_change hive changed_properties bee in
  let bee' := state_of r in
  raised r = None /\ Bee.buzz_temp bee' = b /\ Bee.fan_temp bee' = f /\
  ((b < t)%Q -> (t < f)%Q -> Bee.is_buzzing bee' = false /\ Bee.is_fanning bee' = false) /\
  ((t < b)%Q -> Bee.is_buzzing bee' = true /\ Bee.is_fanning bee' = false) /\
  ((f < t)%Q -> (b <= t)%Q -> Bee.is_buzzing bee' = false /\ Bee.is_fanning bee' = true) /\
  (forall buzzing fanning,
     state_of (Bee.handle_temperature_change hive changed_properties
                 {| Bee.buzz_temp := b; Bee.fan_temp := f;
                    Bee.is_buzzing := buzzing; Bee.is_fanning := fanning |}) = bee') /\
  Bee.is_buzzing bee' && Bee.is_fanning bee' = false.
Proof.
  intros Hin t b f r bee'.
  subst r bee'. unfold Bee.handle_temperature_change, bind, get, gtb, state_of, raised.
  rewrite bool_decide_eq_true_2 by exact Hin. cbn [Bee.buzz_temp Bee.fan_temp].
  fold t b f.
  destruct (ltb t b) eqn:Etb; [|destruct (ltb f t) eqn:Eft]; cbn.
  - apply Q_ltb_lt in Etb.
    split_and!; try reflexivity.
    + intros Hbt _. exfalso. apply (Qlt_irrefl t). now apply Qlt_trans with b.
    + intros _. split; reflexivity.
    + intros _ Hbt. exfalso. apply (Qlt_not_le _ _ Etb Hbt).
  - apply Q_ltb_ge in Etb. apply Q_ltb_lt in Eft.
    split_and!; try reflexivity.
    + intros _ Htf. exfalso. apply (Qlt_irrefl t). now apply Qlt_trans with f.
    + intros Htb. exfalso. apply (Qlt_not_le _ _ Htb Etb).
    + intros _ _. split; reflexivity.
  - apply Q_ltb_ge in Etb, Eft.
    split_and!; try reflexivity.
    + intros _ _. split; reflexivity.
    + intros Htb. exfalso. apply (Qlt_not_le _ _ Htb Etb).
    + intros Hft. exfalso. apply (Qlt_not_le _ _ Hft Eft).
Qed.

(** The bee of [test_bee_temp_change] at 101 degrees. *)
Lemma bee_temperature_classification_witness :
  let bee := {| Bee.buzz_temp := (32 # 1)%Q; Bee.fan_temp := (100 # 1)%Q;
                Bee.is_buzzing := false; Bee.is_fanning := false |} in
  let hive := {| Remote.current_temp := (101 # 1)%Q |} in
  let bee' := state_of (Bee.handle_temperature_change hive ["current_temp"%string] bee) in
  Bee.is_buzzing bee' = false /\ Bee.is_fanning bee' = true.
Proof.
  intros bee hive bee'.
  assert (Hin : "current_temp"%string ∈ ["current_temp"%string]) by (apply list_elem_of_here).
  pose proof (bee_temperature_classification bee hive _ Hin) as (_ & _ & _ & _ & _ & Hfan & _).
  apply Hfan; [reflexivity | discriminate].
Defined.

(** ** OutsideTemperature *)

Section OutsideTemperatureFacts.
Context {T : Type} `{PyNum T}.

Lemma append_loop_map (f : Z -> T) (stop : Z) (temps : list T) :
  OutsideTemperature.append_loop f stop temps = temps ++ (f <$> seqZ 0 stop).
Proof.
  unfold OutsideTemperature.append_loop.
  generalize (seqZ 0 stop) as minutes. intros minutes. revert temps.
  induction minutes as [|minute minutes IH]; intros temps; cbn.
  - now rewrite app_nil_r.
  - rewrite IH. now rewrite <- app_assoc.
Qed.

(** Two loops that append [n] samples each: the sample at index [i]. *)
Lemma two_ramps_lookup (up down : Z -> T) (n i : Z) :
  0 <= i < 2 * n ->
  ((up <$> seqZ 0 n) ++ (down <$> seqZ 0 n)) !! Z.to_nat i
  = Some (if i <? n then up i else down (i - n)).
Proof.
  intros Hi. destruct (i <? n) eqn:E.
  - apply Z.ltb_lt in E.
    rewrite lookup_app_l by (rewrite length_fmap, length_seqZ; lia).
    rewrite list_lookup_fmap, lookup_seqZ_lt by lia.
    cbn. do 2 f_equal. lia.
  - apply Z.ltb_ge in E.
    rewrite lookup_app_r by (rewrite length_fmap, length_seqZ; lia).
    rewrite length_fmap, length_seqZ.
    rewrite list_lookup_fmap, lookup_seqZ_lt by lia.
    cbn. do 2 f_equal. lia.
Qed.

Lemma init_minute_temps (min_temp max_temp : T) :
  exists ot,
    OutsideTemperature.__init__ (Some min_temp) (Some max_temp) = inr ot /\
    OutsideTemperature.min_temp ot = min_temp /\
    OutsideTemperature.max_temp ot = max_temp /\
    OutsideTemperature.__increment_change ot =
      div (sub max_temp min_temp) (div (of_Z (24 * 60)) (of_Z 2)) /\
    OutsideTemperature.current_temp ot = sample min_temp max_temp 0 /\
    length (OutsideTemperature.__minute_temps ot) = 1440%nat /\
    forall i, 0 <= i < 1440 ->
      OutsideTemperature.__minute_temps ot !! Z.to_nat i = Some (sample min_temp max_temp i).
Proof.
  unfold OutsideTemperature.__init__, float_of.
  rewrite !append_loop_map. cbn [app].
  set (inc := div (sub max_temp min_temp) (div (of_Z (24 * 60)) (of_Z 2))).
  set (up := fun minute => add min_temp (mul inc (of_Z minute))).
  set (down := fun minute => sub max_temp (mul inc (of_Z minute))).
  assert (Hlook : forall i, 0 <= i < 1440 ->
            ((up <$> seqZ 0 (12 * 60)) ++ (down <$> seqZ 0 (12 * 60))) !! Z.to_nat i
            = Some (sample min_temp max_temp i)).
  { intros i Hi. rewrite two_ramps_lookup by (clear -Hi; lia).
    unfold sample. fold inc. change (12 * 60) with 720. reflexivity. }
  pose proof (Hlook 0 (conj (Z.le_refl 0) eq_refl)) as Hfirst.
  change (Z.to_nat 0) with 0%nat in Hfirst. rewrite Hfirst.
  eexists. split; [reflexivity|].
  cbn [OutsideTemperature.min_temp OutsideTemperature.max_temp
       OutsideTemperature.__increment_change OutsideTemperature.__minute_temps
       OutsideTemperature.current_temp].
  split_and!; [reflexivity.. | | exact Hlook].
  rewrite length_app, !length_fmap, !length_seqZ. reflexivity.
Qed.

Lemma handle_time_update_lookup (ot : OutsideTemperature.t T) (p t : Z) (temp : T) :
  length (OutsideTemperature.__minute_temps ot) = 1440%nat ->
  OutsideTemperature.__minute_temps ot !! Z.to_nat (t mod 1440) = Some temp ->
  OutsideTemperature.handle_time_update (Some p) t ot =
    (inr tt, {| OutsideTemperature.min_temp := OutsideTemperature.min_temp ot;
                OutsideTemperature.max_temp := OutsideTemperature.max_temp ot;
                OutsideTemperature.__increment_change := OutsideTemperature.__increment_change ot;
                OutsideTemperature.__minute_temps := OutsideTemperature.__minute_temps ot;
                OutsideTemperature.current_temp := temp |}).
Proof.
  intros Hlen Hlook.
  unfold OutsideTemperature.handle_time_update, bind, get, py_assert, ret.
  cbn. rewrite Hlen. change (Z.of_nat 1440) with 1440. cbn [Z.eqb].
  now rewrite Hlook.
Qed.

Lemma handle_time_update_keeps_table (ot : OutsideTemperature.t T) (p : option Z) (t : Z) :
  OutsideTemperature.__minute_temps
    (state_of (OutsideTemperature.handle_time_update p t ot))
  = OutsideTemperature.__minute_temps ot.
Proof.
  unfold OutsideTemperature.handle_time_update, bind, get, py_assert, ret, raise, state_of.
  destruct p; cbn; [|reflexivity].
  destruct (_ =? 0); cbn; [reflexivity|].
  destruct (_ !! _); reflexivity.
Qed.
End OutsideTemperatureFacts.

Section OutsideTemperatureRuns.
Context {T : Type} `{PyNum T}.

Lemma advance_keeps_table (ot : OutsideTemperature.t T) (updates : list (Z * Z)) :
  OutsideTemperature.__minute_temps (advance ot updates)
  = OutsideTemperature.__minute_temps ot.
Proof.
  unfold advance. revert ot.
  induction updates as [|u updates IH]; intros ot; cbn [fold_left]; [reflexivity|].
  rewrite IH. apply handle_time_update_keeps_table.
Qed.

(** On a constructed object, after any earlier notifications, a time
    advance to [t] completes and reports the sample of minute [t mod 1440]. *)
Lemma handle_time_update_sample
    (min_temp max_temp : T) (ot : OutsideTemperature.t T)
    (updates : list (Z * Z)) (p t : Z) :
  OutsideTemperature.__init__ (Some min_temp) (Some max_temp) = inr ot ->
  let r := OutsideTemperature.handle_time_update (Some p) t (advance ot updates) in
  raised r = None /\
  OutsideTemperature.current_temp (state_of r) = sample min_temp max_temp (t mod 1440) /\
  OutsideTemperature.__minute_temps ot !! Z.to_nat (t mod 1440)
    = Some (OutsideTemperature.current_temp (state_of r)).
Proof.
  intros Hinit.
  destruct (init_minute_temps min_temp max_temp) as (ot' & Hinit' & _ & _ & _ & _ & Hlen & Hlook).
  rewrite Hinit in Hinit'. injection Hinit' as <-.
  assert (Hmod : 0 <= t mod 1440 < 1440) by (apply Z.mod_pos_bound; reflexivity).
  specialize (Hlook _ Hmod).
  cbn zeta.
  erewrite handle_time_update_lookup.
  - unfold raised, state_of. cbn. split_and!; [reflexivity | reflexivity | exact Hlook].
  - now rewrite advance_keeps_table.
  - rewrite advance_keeps_table. exact Hlook.
Qed.
End OutsideTemperatureRuns.

(** C7: the object of [OutsideTemperature(min_temp=0, max_temp=720)] is
    constructed, and after any earlier time advances a time advance to [t]
    reports 0 at [t = 0], 720 at [t = 720], 0 at [t = 1440], 440 at [t = 440]
    and 620 at [t = 820]; in exact arithmetic and in binary64. *)
Theorem outside_temperature_test_curve :
  match OutsideTemperature.__init__ (Some 0%Q) (Some (720 # 1)%Q) with
  | inr ot =>
      forall (earlier : list (Z * Z)) (p : Z),
        let temp_at t :=
          OutsideTemperature.current_temp
            (state_of (OutsideTemperature.handle_time_update (Some p) t (advance ot earlier))) in
        (temp_at 0%Z == 0)%Q /\ (temp_at 720%Z == 720 # 1)%Q /\ (temp_at 1440%Z == 0)%Q /\
        (temp_at 440%Z == 440 # 1)%Q /\ (temp_at 820%Z == 620 # 1)%Q
  | inl _ => False
  end /\
  match OutsideTemperature.__init__ (Some 0%float) (Some 720%float) with
  | inr ot =>
      forall (earlier : list (Z * Z)) (p : Z),
        let temp_at t :=
          OutsideTemperature.current_temp
            (state_of (OutsideTemperature.handle_time_update (Some p) t (advance ot earlier))) in
        temp_at 0 = 0%float /\ temp_at 720 = 720%float /\ temp_at 1440 = 0%float /\
        temp_at 440 = 440%float /\ temp_at 820 = 620%float
  | inl _ => False
  end.
Proof.
  split.
  - destruct (init_minute_temps 0%Q (720 # 1)%Q) as (ot & Hinit & _).
    rewrite Hinit. intros earlier p temp_at. subst temp_at. cbn beta.
    split_and!;
      match goal with
      | |- (OutsideTemperature.current_temp
              (state_of (OutsideTemperature.handle_time_update _ ?t _)) == _)%Q =>
          destruct (handle_time_update_sample _ _ _ earlier p t Hinit) as (_ & -> & _);
          vm_compute; reflexivity
      end.
  - destruct (init_minute_temps 0%float 720%float) as (ot & Hinit & _).
    rewrite Hinit. intros earlier p temp_at. subst temp_at. cbn beta.
    split_and!;
      match goal with
      | |- OutsideTemperature.current_temp
             (state_of (OutsideTemperature.handle_time_update _ ?t _)) = _ =>
          destruct (handle_time_update_sample _ _ _ earlier p t Hinit) as (_ & -> & _);
          vm_compute; reflexivity
      end.
Qed.

(** C9: a second time advance to the same [new_time] leaves an
    [OutsideTemperature] exactly as the first left it, and returns as the
    first did; on a constructed object, whatever time advances came before,
    the handler completes and reports the entry of the table computed at
    construction at index [new_time mod 1440]. *)
Theorem outside_temperature_lookup_idempotent {T} `{PyNum T}
    (ot : OutsideTemperature.t T) (p1 p2 t : Z) :
  let r1 := OutsideTemperature.handle_time_update (Some p1) t ot in
  let r2 := OutsideTemperature.handle_time_update (Some p2) t (state_of r1) in
  r2 = r1 /\
  forall min_temp max_temp (earlier : list (Z * Z)),
    OutsideTemperature.__init__ min_temp max_temp = inr ot ->
    let r := OutsideTemperature.handle_time_update (Some p2) t (advance ot earlier) in
    raised r = None /\
    OutsideTemperature.__minute_temps ot !! Z.to_nat (t mod 1440)
      = Some (OutsideTemperature.current_temp (state_of r)) /\
    OutsideTemperature.__minute_temps (state_of r) = OutsideTemperature.__minute_temps ot.
Proof.
  intros r1 r2. split.
  - subst r1 r2.
    unfold OutsideTemperature.handle_time_update, bind, get, py_assert, ret, raise, state_of.
    cbn.
    destruct (Z.of_nat (length (OutsideTemperature.__minute_temps ot)) =? 0) eqn:E0.
    + cbn. now rewrite E0.
    + destruct (OutsideTemperature.__minute_temps ot !! _) as [temp|] eqn:El; cbn.
      * now rewrite E0, El.
      * now rewrite E0, El.
  - intros [min_temp|] [max_temp|] earlier Hinit; try discriminate.
    destruct (handle_time_update_sample min_temp max_temp ot earlier p2 t Hinit)
      as (Hok & _ & Hlook).
    cbn zeta. split_and!; [exact Hok | exact Hlook |].
    rewrite handle_time_update_keeps_table. apply advance_keeps_table.
Qed.

(** ** Exact arithmetic: the samples of the cycle *)

Lemma Q_increment_change (min_temp max_temp : Q) :
  (div (sub max_temp min_temp) (div (of_Z (24 * 60)) (of_Z 2)) * (720 # 1)
   == max_temp - min_temp)%Q.
Proof.
  cbn. change (inject_Z (24 * 60)) with (1440 # 1)%Q. change (inject_Z 2) with (2 # 1)%Q.
  field.
Qed.






(** ** Time advances that do not increase the time *)

(** C5, the claim as stated fails: the time-advance handlers of
    [OutsideTemperature] and of the display model complete on a notification
    whose new time is not greater than the previous time, and store what it
    carries. *)
Lemma time_update_accepted_when_not_increasing :
  match OutsideTemperature.__init__ (Some 0%Q) (Some (720 # 1)%Q) with
  | inr ot =>
      raised (OutsideTemperature.handle_time_update (Some 5) 5 ot) = None /\
      (OutsideTemperature.current_temp
         (state_of (OutsideTemperature.handle_time_update (Some 5%Z) 5%Z ot)) == 5 # 1)%Q
  | inl _ => False
  end /\
  raised (BeehiveDisplayModel.handle_time_update (T:=Q) (Some 5) 3
            BeehiveDisplayModel.__init__) = None /\
  BeehiveDisplayModel.new_time
    (state_of (BeehiveDisplayModel.handle_time_update (T:=Q) (Some 5) 3
                 BeehiveDisplayModel.__init__)) = 3.
Proof.
  split; [|split; reflexivity].
  destruct (init_minute_temps 0%Q (720 # 1)%Q) as (ot & Hinit & _).
  rewrite Hinit.
  destruct (handle_time_update_sample _ _ _ [] 5 5 Hinit) as (Hok & Htemp & _).
  split; [exact Hok|].
  unfold advance in Htemp. cbn [fold_left] in Htemp. rewrite Htemp.
  vm_compute. reflexivity.
Qed.

(** C5, amended: on a time advance whose new time is not greater than the
    previous time, the [Beehive] handler raises [AssertionError] and leaves
    the hive as it was, while the handlers of a constructed
    [OutsideTemperature] and of the display model complete, the first
    reporting the table entry at [new_time mod 1440] and the second recording
    the two times; those two reject only a previous time that is [None]. *)
Theorem time_update_rejection {T} `{PyNum T} (previous_time new_time : Z) :
  new_time <= previous_time ->
  (forall hive : Beehive.t T,
     Beehive.handle_time_update (Some previous_time) new_time hive
     = (inl AssertionError, hive)) /\
  (forall min_temp max_temp (ot : OutsideTemperature.t T),
     OutsideTemperature.__init__ min_temp max_temp = inr ot ->
     let r := OutsideTemperature.handle_time_update (Some previous_time) new_time ot in
     raised r = None /\
     OutsideTemperature.__minute_temps ot !! Z.to_nat (new_time mod 1440)
       = Some (OutsideTemperature.current_temp (state_of r)) /\
     OutsideTemperature.handle_time_update None new_time ot = (inl AssertionError, ot)) /\
  (forall display : BeehiveDisplayModel.t T,
     let r := BeehiveDisplayModel.handle_time_update (Some previous_time) new_time display in
     raised r = None /\
     BeehiveDisplayModel.previous_time (state_of r) = previous_time /\
     BeehiveDisplayModel.new_time (state_of r) = new_time /\
     BeehiveDisplayModel.handle_time_update None new_time display
       = (inl AssertionError, display)).
Proof.
  intros Hle. split_and!.
  - intros hive. unfold Beehive.handle_time_update, bind, py_assert.
    replace (previous_time <? new_time) with false by (symmetry; apply Z.ltb_ge; exact Hle).
    reflexivity.
  - intros [min_temp|] [max_temp|] ot Hinit; try discriminate.
    destruct (handle_time_update_sample min_temp max_temp ot [] previous_time new_time Hinit)
      as (Hok & _ & Hlook).
    cbn zeta. split_and!; [exact Hok | exact Hlook | reflexivity].
  - intros display. cbn zeta. split_and!; reflexivity.
Qed.

(** A time advance from 5 to 5. *)
Lemma time_update_rejection_witness :
  (forall hive : Beehive.t Q,
     Beehive.handle_time_update (Some 5) 5 hive = (inl AssertionError, hive)) /\
  (forall display : BeehiveDisplayModel.t Q,
     raised (BeehiveDisplayModel.handle_time_update (Some 5) 5 display) = None).
Proof.
  destruct (time_update_rejection (T:=Q) 5 5 (Z.le_refl 5)) as (Hhive & _ & Hdisplay).
  split; [exact Hhive|].
  intros display. apply (Hdisplay display).
Defined.

(** ** Beehive: recounting the tracked bees *)

Lemma py_sum_ones {A} (l : list A) : py_sum ((fun _ => 1) <$> l) = Z.of_nat (length l).
Proof.
  unfold py_sum.
  enough (Hacc : forall acc, fold_left Z.add ((fun _ => 1) <$> l) acc = acc + Z.of_nat (length l))
    by (rewrite Hacc; lia).
  induction l as [|x l IH]; intros acc; cbn [fmap list_fmap fold_left length].
  - lia.
  - rewrite IH. lia.
Qed.

Lemma count_flag_empty flag : count_flag flag ∅ = 0.
Proof. unfold count_flag. now rewrite map_to_list_empty. Qed.

Lemma count_flag_insert_fresh flag (bees : gmap Z Remote.bee) guid bee :
  bees !! guid = None ->
  count_flag flag (<[guid := bee]> bees) = flag_value (flag bee) + count_flag flag bees.
Proof.
  intros Hfresh. unfold count_flag.
  rewrite (map_to_list_insert bees guid bee Hfresh).
  cbn [fmap list_fmap snd]. rewrite filter_cons.
  destruct (flag bee); cbn [flag_value].
  - rewrite decide_True by exact I. cbn [length]. lia.
  - rewrite decide_False by (intros []). lia.
Qed.

Lemma count_flag_delete flag (bees : gmap Z Remote.bee) guid bee :
  bees !! guid = Some bee ->
  count_flag flag bees = flag_value (flag bee) + count_flag flag (delete guid bees).
Proof.
  intros Hbee.
  rewrite <- (count_flag_insert_fresh flag (delete guid bees) guid bee)
    by apply lookup_delete_eq.
  now rewrite insert_delete_id.
Qed.

Lemma count_flag_replace flag (bees : gmap Z Remote.bee) guid prev_bee bee :
  bees !! guid = Some prev_bee ->
  count_flag flag (<[guid := bee]> bees)
  = count_flag flag bees - flag_value (flag prev_bee) + flag_value (flag bee).
Proof.
  intros Hprev.
  rewrite (count_flag_delete flag bees guid prev_bee Hprev).
  rewrite <- (insert_delete_eq bees guid bee).
  rewrite count_flag_insert_fresh by apply lookup_delete_eq. lia.
Qed.

Section BeehiveFacts.
Context {T : Type} `{PyNum T}.

Lemma get_number_bees_buzzing_count (hive : Beehive.t T) :
  Beehive.get_number_bees_buzzing hive
  = count_flag Remote.is_buzzing (Beehive.__known_bees hive).
Proof. unfold Beehive.get_number_bees_buzzing. apply py_sum_ones. Qed.

Lemma get_number_bees_fanning_count (hive : Beehive.t T) :
  Beehive.get_number_bees_fanning hive
  = count_flag Remote.is_fanning (Beehive.__known_bees hive).
Proof. unfold Beehive.get_number_bees_fanning. apply py_sum_ones. Qed.

Lemma handle_new_bee_result (bee : Remote.bee) (hive : Beehive.t T) :
  Beehive.handle_new_bee bee hive =
    (inr tt,
     {| Beehive.current_temp := Beehive.current_temp hive;
        Beehive._outside_temp := Beehive._outside_temp hive;
        Beehive.buzzing_impact := Beehive.buzzing_impact hive;
        Beehive.fanning_impact := Beehive.fanning_impact hive;
        Beehive.number_bees := Beehive.number_bees hive + 1;
        Beehive.number_bees_buzzing :=
          Beehive.number_bees_buzzing hive + flag_value (Remote.is_buzzing bee);
        Beehive.number_bees_fanning :=
          Beehive.number_bees_fanning hive + flag_value (Remote.is_fanning bee);
        Beehive.__known_bees := <[Remote.guid bee := bee]> (Beehive.__known_bees hive) |}).
Proof.
  unfold Beehive.handle_new_bee, bind, get, when, ret.
  destruct (Remote.is_fanning bee), (Remote.is_buzzing bee); cbn;
    rewrite ?Z.add_0_r; reflexivity.
Qed.

Lemma handle_dead_bee_result (bee tracked : Remote.bee) (hive : Beehive.t T) :
  Beehive.__known_bees hive !! Remote.guid bee = Some tracked ->
  Beehive.handle_dead_bee bee hive =
    (inr tt,
     {| Beehive.current_temp := Beehive.current_temp hive;
        Beehive._outside_temp := Beehive._outside_temp hive;
        Beehive.buzzing_impact := Beehive.buzzing_impact hive;
        Beehive.fanning_impact := Beehive.fanning_impact hive;
        Beehive.number_bees := Beehive.number_bees hive - 1;
        Beehive.number_bees_buzzing :=
          Beehive.number_bees_buzzing hive - flag_value (Remote.is_buzzing tracked);
        Beehive.number_bees_fanning :=
          Beehive.number_bees_fanning hive - flag_value (Remote.is_fanning tracked);
        Beehive.__known_bees := delete (Remote.guid bee) (Beehive.__known_bees hive) |}).
Proof.
  intros Htracked.
  unfold Beehive.handle_dead_bee, Beehive.pop_known_bee, bind, get, when, ret.
  cbn. rewrite Htracked. cbn.
  destruct (Remote.is_fanning tracked), (Remote.is_buzzing tracked); cbn;
    rewrite ?Z.sub_0_r; reflexivity.
Qed.

Lemma handle_dead_bee_untracked (bee : Remote.bee) (hive : Beehive.t T) :
  Beehive.__known_bees hive !! Remote.guid bee = None ->
  Beehive.handle_dead_bee bee hive =
    (inl KeyError,
     {| Beehive.current_temp := Beehive.current_temp hive;
        Beehive._outside_temp := Beehive._outside_temp hive;
        Beehive.buzzing_impact := Beehive.buzzing_impact hive;
        Beehive.fanning_impact := Beehive.fanning_impact hive;
        Beehive.number_bees := Beehive.number_bees hive - 1;
        Beehive.number_bees_buzzing := Beehive.number_bees_buzzing hive;
        Beehive.number_bees_fanning := Beehive.number_bees_fanning hive;
        Beehive.__known_bees := Beehive.__known_bees hive |}).
Proof.
  intros Hnone.
  unfold Beehive.handle_dead_bee, Beehive.pop_known_bee, bind, get, when, ret, raise.
  cbn. now rewrite Hnone.
Qed.

Lemma handle_bee_update_result
    (bee prev_bee : Remote.bee) (changed_properties : list string) (hive : Beehive.t T) :
  changed_properties <> [] ->
  Beehive.__known_bees hive !! Remote.guid bee = Some prev_bee ->
  Beehive.handle_bee_update bee changed_properties hive =
    (inr tt,
     {| Beehive.current_temp := Beehive.current_temp hive;
        Beehive._outside_temp := Beehive._outside_temp hive;
        Beehive.buzzing_impact := Beehive.buzzing_impact hive;
        Beehive.fanning_impact := Beehive.fanning_impact hive;
        Beehive.number_bees := Beehive.number_bees hive;
        Beehive.number_bees_buzzing :=
          Beehive.number_bees_buzzing hive
          - flag_value (Remote.is_buzzing prev_bee) + flag_value (Remote.is_buzzing bee);
        Beehive.number_bees_fanning :=
          Beehive.number_bees_fanning hive
          - flag_value (Remote.is_fanning prev_bee) + flag_value (Remote.is_fanning bee);
        Beehive.__known_bees := <[Remote.guid bee := bee]> (Beehive.__known_bees hive) |}).
Proof.
  intros Hprops Hprev.
  unfold Beehive.handle_bee_update, Beehive.known_bee, bind, get, when, ret, py_assert.
  rewrite bool_decide_eq_false_2 by exact Hprops.
  cbn. rewrite Hprev. cbn.
  destruct (Remote.is_fanning prev_bee), (Remote.is_fanning bee),
           (Remote.is_buzzing prev_bee), (Remote.is_buzzing bee); cbn;
    unfold Beehive.set_number_bees_buzzing, Beehive.set_number_bees_fanning;
    cbn [flag_value Beehive.current_temp Beehive._outside_temp Beehive.buzzing_impact
         Beehive.fanning_impact Beehive.number_bees Beehive.number_bees_buzzing
         Beehive.number_bees_fanning Beehive.__known_bees];
    f_equal; f_equal; lia.
Qed.

(** A change for an identifier that is not tracked: the handler raises
    before it writes anything. *)
Lemma handle_bee_update_untracked
    (bee : Remote.bee) (changed_properties : list string) (hive : Beehive.t T) :
  Beehive.__known_bees hive !! Remote.guid bee = None ->
  Beehive.handle_bee_update bee changed_properties hive
  = (inl (if bool_decide (changed_properties = []) then AssertionError else KeyError), hive).
Proof.
  intros Hnone.
  unfold Beehive.handle_bee_update, Beehive.known_bee, bind, get, when, ret, py_assert, raise.
  destruct (bool_decide (changed_properties = [])); cbn; [reflexivity|].
  now rewrite Hnone.
Qed.

Lemma handle_time_update_result (previous_time new_time : Z) (hive : Beehive.t T) :
  previous_time < new_time ->
  Beehive.handle_time_update (Some previous_time) new_time hive =
    (inr tt,
     {| Beehive.current_temp :=
          add (add (Beehive.current_temp hive)
                   (if gtb (Beehive._outside_temp hive) (Beehive.current_temp hive)
                    then mul two_tenths
                           (sub (Beehive._outside_temp hive) (Beehive.current_temp hive))
                    else mul two_tenths
                           (sub (Beehive.current_temp hive) (Beehive._outside_temp hive))))
              (mul (sub (mul (of_Z (Beehive.get_number_bees_buzzing hive))
                             (Beehive.buzzing_impact hive))
                        (mul (of_Z (Beehive.get_number_bees_fanning hive))
                             (Beehive.fanning_impact hive)))
                   (of_Z (new_time - previous_time)));
        Beehive._outside_temp := Beehive._outside_temp hive;
        Beehive.buzzing_impact := Beehive.buzzing_impact hive;
        Beehive.fanning_impact := Beehive.fanning_impact hive;
        Beehive.number_bees := Beehive.number_bees hive;
        Beehive.number_bees_buzzing := Beehive.number_bees_buzzing hive;
        Beehive.number_bees_fanning := Beehive.number_bees_fanning hive;
        Beehive.__known_bees := Beehive.__known_bees hive |}).
Proof.
  intros Hlt.
  unfold Beehive.handle_time_update, bind, get, py_assert, ret.
  replace (previous_time <? new_time) with true by (symmetry; apply Z.ltb_lt; exact Hlt).
  reflexivity.
Qed.
End BeehiveFacts.

Section BeehiveRuns.
Context {T : Type} `{PyNum T}.

Lemma handle_outside_temperature_update_result
    (temp : Remote.outside_temperature T) (changed_properties : list string)
    (hive : Beehive.t T) :
  changed_properties <> [] ->
  Beehive.handle_outside_temperature_update temp changed_properties hive =
    (inr tt,
     {| Beehive.current_temp := Beehive.current_temp hive;
        Beehive._outside_temp := Remote.temp_current_temp temp;
        Beehive.buzzing_impact := Beehive.buzzing_impact hive;
        Beehive.fanning_impact := Beehive.fanning_impact hive;
        Beehive.number_bees := Beehive.number_bees hive;
        Beehive.number_bees_buzzing := Beehive.number_bees_buzzing hive;
        Beehive.number_bees_fanning := Beehive.number_bees_fanning hive;
        Beehive.__known_bees := Beehive.__known_bees hive |}).
Proof.
  intros Hprops.
  unfold Beehive.handle_outside_temperature_update, bind, py_assert.
  rewrite bool_decide_eq_false_2 by exact Hprops. reflexivity.
Qed.

Lemma counters_agree_count (hive : Beehive.t T) :
  counters_agree hive <->
  Beehive.number_bees_buzzing hive
    = count_flag Remote.is_buzzing (Beehive.__known_bees hive) /\
  Beehive.number_bees_fanning hive
    = count_flag Remote.is_fanning (Beehive.__known_bees hive).
Proof.
  unfold counters_agree.
  now rewrite get_number_bees_buzzing_count, get_number_bees_fanning_count.
Qed.

(** One expected notification: the handler completes, the tracked
    identifiers follow, and the counters still agree with a recount. *)
Lemma deliver_sequenced (e : Beehive.event T) (es : list (Beehive.event T))
    (tracked : gset Z) (hive : Beehive.t T) :
  sequenced tracked (e :: es) = true ->
  dom (Beehive.__known_bees hive) = tracked ->
  counters_agree hive ->
  exists tracked' hive',
    Beehive.deliver e hive = (inr tt, hive') /\
    sequenced tracked' es = true /\
    dom (Beehive.__known_bees hive') = tracked' /\
    counters_agree hive' /\
    Beehive.number_bees hive' + creates es - destroys es
      = Beehive.number_bees hive + creates (e :: es) - destroys (e :: es).
Proof.
  intros Hseq Hdom Hagree. apply counters_agree_count in Hagree as [Hbuzz Hfan].
  destruct e as [bee|bee|bee props|temp props|previous_time new_time];
    cbn [sequenced] in Hseq; cbn [Beehive.deliver creates destroys].
  - apply andb_true_iff in Hseq as [Hfresh Hseq]. apply bool_decide_eq_true in Hfresh.
    assert (Hnone : Beehive.__known_bees hive !! Remote.guid bee = None).
    { apply not_elem_of_dom. now rewrite Hdom. }
    eexists _, _. split; [apply handle_new_bee_result|].
    split; [exact Hseq|]. split_and!.
    + cbn. rewrite dom_insert_L. now rewrite Hdom.
    + apply counters_agree_count. cbn.
      rewrite !count_flag_insert_fresh by exact Hnone. lia.
    + cbn. lia.
  - apply andb_true_iff in Hseq as [Hin Hseq]. apply bool_decide_eq_true in Hin.
    rewrite <- Hdom in Hin. apply elem_of_dom in Hin as [tracked_bee Htracked].
    eexists _, _. split; [apply (handle_dead_bee_result _ _ _ Htracked)|].
    split; [exact Hseq|]. split_and!.
    + cbn. rewrite dom_delete_L. now rewrite Hdom.
    + apply counters_agree_count. cbn.
      rewrite (count_flag_delete Remote.is_buzzing _ _ _ Htracked) in Hbuzz.
      rewrite (count_flag_delete Remote.is_fanning _ _ _ Htracked) in Hfan. lia.
    + cbn. lia.
  - apply andb_true_iff in Hseq as [Hseq Hrest].
    apply andb_true_iff in Hseq as [Hin Hprops].
    apply bool_decide_eq_true in Hin. apply negb_true_iff in Hprops.
    apply bool_decide_eq_false in Hprops.
    assert (Hin' := Hin). rewrite <- Hdom in Hin'.
    apply elem_of_dom in Hin' as [prev_bee Hprev].
    eexists _, _. split; [apply (handle_bee_update_result _ _ _ _ Hprops Hprev)|].
    split; [exact Hrest|]. split_and!.
    + cbn. rewrite dom_insert_L, Hdom. set_solver.
    + apply counters_agree_count. cbn.
      rewrite !(count_flag_replace _ _ _ _ _ Hprev). lia.
    + cbn. lia.
  - apply andb_true_iff in Hseq as [Hprops Hrest].
    apply negb_true_iff in Hprops.
    apply bool_decide_eq_false in Hprops.
    eexists _, _. split; [apply (handle_outside_temperature_update_result _ _ _ Hprops)|].
    split; [exact Hrest|]. split_and!; [exact Hdom | | cbn; lia].
    apply counters_agree_count. cbn. auto.
  - apply andb_true_iff in Hseq as [Htime Hrest].
    destruct previous_time as [previous_time|]; [|discriminate].
    apply Z.ltb_lt in Htime.
    eexists _, _. split; [apply (handle_time_update_result _ _ _ Htime)|].
    split; [exact Hrest|]. split_and!; [exact Hdom | | cbn; lia].
    apply counters_agree_count. cbn. auto.
Qed.

Lemma deliver_all_sequenced (es : list (Beehive.event T)) :
  forall (tracked : gset Z) (hive : Beehive.t T),
    sequenced tracked es = true ->
    dom (Beehive.__known_bees hive) = tracked ->
    counters_agree hive ->
    raised (Beehive.deliver_all es hive) = None /\
    Beehive.number_bees (state_of (Beehive.deliver_all es hive))
      = Beehive.number_bees hive + creates es - destroys es /\
    counters_agree (state_of (Beehive.deliver_all es hive)).
Proof.
  induction es as [|e es IH]; intros tracked hive Hseq Hdom Hagree.
  - cbn. split_and!; [reflexivity | lia | exact Hagree].
  - destruct (deliver_sequenced e es tracked hive Hseq Hdom Hagree)
      as (tracked' & hive' & Hstep & Hseq' & Hdom' & Hagree' & Hcount).
    cbn [Beehive.deliver_all]. unfold bind. rewrite Hstep.
    destruct (IH tracked' hive' Hseq' Hdom' Hagree') as (Hok & Hbees & Hagree'').
    split_and!; [exact Hok | | exact Hagree''].
    rewrite Hbees. exact Hcount.
Qed.
End BeehiveRuns.




Section BeehiveTracking.
Context {T : Type} `{PyNum T}.

(** Whatever is delivered, and whether or not a handler raises, the hive
    tracks no identifier other than those it tracked and those created. *)
Lemma deliver_tracks_created (e : Beehive.event T) (hive : Beehive.t T) :
  dom (Beehive.__known_bees (state_of (Beehive.deliver e hive)))
  ⊆ dom (Beehive.__known_bees hive) ∪ created_guids [e].
Proof.
  destruct e as [bee|bee|bee props|temp props|previous_time new_time];
    cbn [Beehive.deliver created_guids].
  - rewrite handle_new_bee_result. unfold state_of. cbn.
    rewrite dom_insert_L. set_solver.
  - destruct (Beehive.__known_bees hive !! Remote.guid bee) as [tracked|] eqn:E.
    + rewrite (handle_dead_bee_result _ _ _ E). unfold state_of. cbn.
      rewrite dom_delete_L. set_solver.
    + rewrite (handle_dead_bee_untracked _ _ E). unfold state_of. cbn. set_solver.
  - destruct (Beehive.__known_bees hive !! Remote.guid bee) as [prev_bee|] eqn:E.
    + destruct (decide (props = [])) as [->|Hprops].
      * unfold state_of. cbn. set_solver.
      * rewrite (handle_bee_update_result _ _ _ _ Hprops E). unfold state_of. cbn.
        rewrite dom_insert_L. apply elem_of_dom_2 in E. set_solver.
    + rewrite (handle_bee_update_untracked _ _ _ E). unfold state_of. cbn. set_solver.
  - destruct (decide (props = [])) as [->|Hprops].
    + unfold state_of. cbn. set_solver.
    + rewrite (handle_outside_temperature_update_result _ _ _ Hprops).
      unfold state_of. cbn. set_solver.
  - destruct previous_time as [previous_time|]; [|unfold state_of; cbn; set_solver].
    destruct (decide (previous_time < new_time)) as [Hlt|Hge].
    + rewrite (handle_time_update_result _ _ _ Hlt). unfold state_of. cbn. set_solver.
    + unfold Beehive.handle_time_update, bind, py_assert, state_of.
      replace (previous_time <? new_time) with false by (symmetry; apply Z.ltb_ge; lia).
      cbn. set_solver.
Qed.

Lemma deliver_all_tracks_created (es : list (Beehive.event T)) :
  forall hive : Beehive.t T,
    dom (Beehive.__known_bees (state_of (Beehive.deliver_all es hive)))
    ⊆ dom (Beehive.__known_bees hive) ∪ created_guids es.
Proof.
  induction es as [|e es IH]; intros hive.
  - unfold state_of. cbn. set_solver.
  - pose proof (deliver_tracks_created e hive) as Hstep.
    cbn [Beehive.deliver_all]. unfold bind.
    destruct (Beehive.deliver e hive) as [[exc|[]] hive'] eqn:E.
    + unfold state_of in *. cbn in *. destruct e; cbn [created_guids] in *; set_solver.
    + specialize (IH hive'). unfold state_of in *. cbn [snd] in *.
      destruct e; cbn [created_guids] in *; set_solver.
Qed.
End BeehiveTracking.

(** C6: after any notifications, none of which created the identifier of
    [bee], a bee-changed notification for [bee] raises ([KeyError], or
    [AssertionError] when it names no property) and leaves the hive, with its
    three counters and its mapping, exactly as it was. *)
Theorem untracked_bee_update_is_rejected {T} `{PyNum T}
    (start_temp buzzing_impact fanning_impact : T) (es : list (Beehive.event T))
    (bee : Remote.bee) (changed_properties : list string) :
  Remote.guid bee ∉ created_guids es ->
  let hive :=
    state_of (Beehive.deliver_all es
                (Beehive.__init__ start_temp buzzing_impact fanning_impact)) in
  exists exc, Beehive.handle_bee_update bee changed_properties hive = (inl exc, hive).
Proof.
  intros Hnew hive.
  assert (Hnone : Beehive.__known_bees hive !! Remote.guid bee = None).
  { apply not_elem_of_dom. intros Hin.
    apply (deliver_all_tracks_created es) in Hin. cbn in Hin. set_solver. }
  eexists. apply (handle_bee_update_untracked _ _ _ Hnone).
Qed.

(** A change for bee 2 in a hive that was told of bee 1 only. *)
Lemma untracked_bee_update_is_rejected_witness :
  let hive :=
    state_of (Beehive.deliver_all [Beehive.BeeCreated (buzzing_bee 1)]
                (Beehive.__init__ (10 # 1)%Q (1 # 4)%Q (1 # 4)%Q)) in
  exists exc,
    Beehive.handle_bee_update (fanning_bee 2) ["is_fanning"%string] hive = (inl exc, hive).
Proof.
  apply (untracked_bee_update_is_rejected (10 # 1)%Q (1 # 4)%Q (1 # 4)%Q
           [Beehive.BeeCreated (buzzing_bee 1)] (fanning_bee 2) ["is_fanning"%string]).
  cbn. set_solver.
Defined.

(** ** Beehive: the temperature of the hive *)

Lemma one_minute_result {T} `{PyNum T} (previous_time : Z) (hive : Beehive.t T) :
  one_minute previous_time hive =
    state_of (Beehive.handle_time_update (Some 0) 1 hive) /\
  raised (Beehive.handle_time_update (Some previous_time) (previous_time + 1) hive) = None.
Proof.
  unfold one_minute.
  rewrite (handle_time_update_result previous_time (previous_time + 1)) by lia.
  rewrite (handle_time_update_result 0 1) by lia.
  replace (previous_time + 1 - previous_time) with (1 - 0) by lia.
  split; reflexivity.
Qed.

(** C2: in the hive [Beehive(start_temp=10, buzzing_impact=0.5,
    fanning_impact=0.25)] with three buzzing bees and one fanning bee, whose
    outside temperature is 10, a time advance of one minute completes and
    sets [current_temp] to 11.25, and a further advance of one minute sets it
    to 12.75; in exact arithmetic and in binary64. *)
Theorem beehive_time_update_example (t0 t1 : Z) :
  (let hive := test_hive (10 # 1)%Q (1 # 2)%Q (1 # 4)%Q in
   (Beehive._outside_temp hive == 10 # 1)%Q /\
   Beehive.get_number_bees_buzzing hive = 3 /\
   Beehive.get_number_bees_fanning hive = 1 /\
   raised (Beehive.handle_time_update (Some t0) (t0 + 1) hive) = None /\
   (Beehive.current_temp (one_minute t0 hive) == 45 # 4)%Q /\
   raised (Beehive.handle_time_update (Some t1) (t1 + 1) (one_minute t0 hive)) = None /\
   (Beehive.current_temp (one_minute t1 (one_minute t0 hive)) == 51 # 4)%Q) /\
  (let hive := test_hive 10%float 0.5%float 0.25%float in
   Beehive._outside_temp hive = 10%float /\
   Beehive.get_number_bees_buzzing hive = 3 /\
   Beehive.get_number_bees_fanning hive = 1 /\
   raised (Beehive.handle_time_update (Some t0) (t0 + 1) hive) = None /\
   Beehive.current_temp (one_minute t0 hive) = 11.25%float /\
   raised (Beehive.handle_time_update (Some t1) (t1 + 1) (one_minute t0 hive)) = None /\
   Beehive.current_temp (one_minute t1 (one_minute t0 hive)) = 12.75%float).
Proof.
  split; intros hive.
  - destruct (one_minute_result t0 hive) as [-> Hok0].
    destruct (one_minute_result t1 (state_of (Beehive.handle_time_update (Some 0) 1 hive)))
      as [-> Hok1].
    split_and!; [| | | exact Hok0 | | exact Hok1 |]; vm_compute; reflexivity.
  - destruct (one_minute_result t0 hive) as [-> Hok0].
    destruct (one_minute_result t1 (state_of (Beehive.handle_time_update (Some 0) 1 hive)))
      as [-> Hok1].
    split_and!; [| | | exact Hok0 | | exact Hok1 |]; vm_compute; reflexivity.
Qed.

(** C1, what the code does where the claim has the hive cool: a hive at 20
    with no bees, told that the outside temperature is 10, is at 22 after a
    time advance of one minute; in exact arithmetic and in binary64. *)
Theorem cooler_outside_warms_the_hive :
  (let hive :=
     state_of (Beehive.deliver_all
                 [Beehive.OutsideTemperatureChanged
                    {| Remote.temp_current_temp := (10 # 1)%Q |} ["current_temp"%string];
                  Beehive.TimeUpdate (Some 0) 1]
                 (Beehive.__init__ (20 # 1)%Q (1 # 2)%Q (1 # 2)%Q)) in
   (Beehive._outside_temp hive == 10 # 1)%Q /\ (Beehive.current_temp hive == 22 # 1)%Q) /\
  (let hive :=
     state_of (Beehive.deliver_all
                 [Beehive.OutsideTemperatureChanged
                    {| Remote.temp_current_temp := 10%float |} ["current_temp"%string];
                  Beehive.TimeUpdate (Some 0) 1]
                 (Beehive.__init__ 20%float 0.5%float 0.5%float)) in
   Beehive._outside_temp hive = 10%float /\ Beehive.current_temp hive = 22%float).
Proof.
  split; vm_compute; split; reflexivity.
Qed.

(** X1: the contribution of the outside temperature to a time advance, in
    exact arithmetic: a fifth of the distance between the two temperatures, added
    whichever of the two is the higher. *)
Theorem outside_impact_is_never_negative (previous_time new_time : Z) (hive : Beehive.t Q) :
  previous_time < new_time ->
  let hive' := state_of (Beehive.handle_time_update (Some previous_time) new_time hive) in
  let bee_impact :=
    (inject_Z (Beehive.get_number_bees_buzzing hive) * Beehive.buzzing_impact hive
     - inject_Z (Beehive.get_number_bees_fanning hive) * Beehive.fanning_impact hive)%Q in
  (Beehive.current_temp hive' ==
     Beehive.current_temp hive
     + (2 # 10) * Qabs (Beehive._outside_temp hive - Beehive.current_temp hive)
     + bee_impact * inject_Z (new_time - previous_time))%Q.
Proof.
  intros Hlt hive' bee_impact. subst hive' bee_impact.
  rewrite (handle_time_update_result _ _ _ Hlt). unfold state_of, gtb. cbn.
  destruct (Qle_bool (Beehive._outside_temp hive) (Beehive.current_temp hive)) eqn:E; cbn.
  - apply Qle_bool_iff in E.
    rewrite (Qabs_neg (Beehive._outside_temp hive - Beehive.current_temp hive)) by lra.
    ring.
  - assert (Hgt : (Beehive.current_temp hive < Beehive._outside_temp hive)%Q).
    { apply Qnot_le_lt. intros Hle. apply Qle_bool_iff in Hle. congruence. }
    rewrite (Qabs_pos (Beehive._outside_temp hive - Beehive.current_temp hive)) by lra.
    ring.
Qed.

(** The hive at 20 with 10 outside, one minute. *)
Lemma outside_impact_is_never_negative_witness :
  let hive :=
    {| Beehive.current_temp := (20 # 1)%Q; Beehive._outside_temp := (10 # 1)%Q;
       Beehive.buzzing_impact := (1 # 2)%Q; Beehive.fanning_impact := (1 # 2)%Q;
       Beehive.number_bees := 0; Beehive.number_bees_buzzing := 0;
       Beehive.number_bees_fanning := 0; Beehive.__known_bees := ∅ |} in
  (Beehive.current_temp (state_of (Beehive.handle_time_update (Some 0%Z) 1%Z hive)) ==
     Beehive.current_temp hive
     + (2 # 10) * Qabs (Beehive._outside_temp hive - Beehive.current_temp hive)
     + (inject_Z (Beehive.get_number_bees_buzzing hive) * Beehive.buzzing_impact hive
        - inject_Z (Beehive.get_number_bees_fanning hive) * Beehive.fanning_impact hive)
       * inject_Z (1 - 0))%Q.
Proof.
  intros hive. apply (outside_impact_is_never_negative 0 1 hive). reflexivity.
Defined.

(** ** Beehive: two further handlers *)

(** X2: an outside-temperature change that names a property completes,
    stores the reading, and leaves the temperature of the hive, its
    counters and its tracked bees as they were. *)
Theorem outside_temperature_update_stores_reading {T} `{PyNum T}
    (outside_temperature : Remote.outside_temperature T)
    (changed_properties : list string) (hive : Beehive.t T) :
  changed_properties <> [] ->
  let r := Beehive.handle_outside_temperature_update
             outside_temperature changed_properties hive in
  raised r = None /\
  Beehive._outside_temp (state_of r) = Remote.temp_current_temp outside_temperature /\
  Beehive.current_temp (state_of r) = Beehive.current_temp hive /\
  Beehive.number_bees (state_of r) = Beehive.number_bees hive /\
  Beehive.number_bees_buzzing (state_of r) = Beehive.number_bees_buzzing hive /\
  Beehive.number_bees_fanning (state_of r) = Beehive.number_bees_fanning hive /\
  Beehive.__known_bees (state_of r) = Beehive.__known_bees hive.
Proof.
  intros Hprops r. subst r.
  rewrite (handle_outside_temperature_update_result _ _ _ Hprops).
  unfold raised, state_of. cbn. split_and!; reflexivity.
Qed.

(** The step of [test_change_temp]: a hive at 10 told of 20 outside. *)
Lemma outside_temperature_update_stores_reading_witness :
  let hive := Beehive.__init__ (10 # 1)%Q (1 # 2)%Q (1 # 4)%Q in
  let r := Beehive.handle_outside_temperature_update
             {| Remote.temp_current_temp := (20 # 1)%Q |} ["current_temp"%string] hive in
  Beehive._outside_temp (state_of r) = (20 # 1)%Q /\
  Beehive.current_temp (state_of r) = (10 # 1)%Q.
Proof.
  intros hive r.
  destruct (outside_temperature_update_stores_reading
              {| Remote.temp_current_temp := (20 # 1)%Q |} ["current_temp"%string] hive)
    as (_ & Houtside & Hcurrent & _).
  - discriminate.
  - split; [exact Houtside | exact Hcurrent].
Defined.

(** X3: a bee-destroyed notification for an identifier that is not tracked
    raises [KeyError] at the [pop], after [number_bees] was decremented: the
    other two counters and the mapping are as they were. *)
Theorem untracked_bee_destroy_decrements_first {T} `{PyNum T}
    (bee : Remote.bee) (hive : Beehive.t T) :
  Beehive.__known_bees hive !! Remote.guid bee = None ->
  let r := Beehive.handle_dead_bee bee hive in
  raised r = Some KeyError /\
  Beehive.number_bees (state_of r) = Beehive.number_bees hive - 1 /\
  Beehive.number_bees_buzzing (state_of r) = Beehive.number_bees_buzzing hive /\
  Beehive.number_bees_fanning (state_of r) = Beehive.number_bees_fanning hive /\
  Beehive.__known_bees (state_of r) = Beehive.__known_bees hive.
Proof.
  intros Hnone r. subst r.
  rewrite (handle_dead_bee_untracked _ _ Hnone).
  unfold raised, state_of. cbn. split_and!; reflexivity.
Qed.

(** A destroy delivered to a hive that was told of no bee. *)
Lemma untracked_bee_destroy_decrements_first_witness :
  let r := Beehive.handle_dead_bee (buzzing_bee 1)
             (Beehive.__init__ (10 # 1)%Q (1 # 4)%Q (1 # 4)%Q) in
  raised r = Some KeyError /\ Beehive.number_bees (state_of r) = -1.
Proof.
  intros r.
  destruct (untracked_bee_destroy_decrements_first (buzzing_bee 1)
              (Beehive.__init__ (10 # 1)%Q (1 # 4)%Q (1 # 4)%Q))
    as (Hraised & Hbees & _).
  - reflexivity.
  - split; [exact Hraised | exact Hbees].
Defined.

(** * Further properties *)

(** ** Bee: a sequence of notifications *)

Section BeeRuns.
Context {T : Type} `{PyNum T}.

Lemma handle_temperature_change_flags
    (bee : Bee.t T) (hive : Remote.beehive T) (changed_properties : list string) :
  let bee' := state_of (Bee.handle_temperature_change hive changed_properties bee) in
  Bee.buzz_temp bee' = Bee.buzz_temp bee /\
  Bee.fan_temp bee' = Bee.fan_temp bee /\
  (Bee.is_buzzing bee', Bee.is_fanning bee') =
    if bool_decide ("current_temp"%string ∈ changed_properties)
    then bee_flags (Bee.buzz_temp bee) (Bee.fan_temp bee) (Remote.current_temp hive)
    else (Bee.is_buzzing bee, Bee.is_fanning bee).
Proof.
  unfold Bee.handle_temperature_change, bind, get, state_of, bee_flags.
  destruct (bool_decide _); cbn; [|auto].
  destruct (ltb _ _); [cbn; auto|].
  destruct (gtb _ _); cbn; auto.
Qed.

Lemma notify_all_flags (ns : list (Remote.beehive T * list string)) :
  forall (bee : Bee.t T) (seen : option T) (idle : bool * bool) (b f : T),
    Bee.buzz_temp bee = b -> Bee.fan_temp bee = f ->
    (Bee.is_buzzing bee, Bee.is_fanning bee)
      = match seen with Some t => bee_flags b f t | None => idle end ->
    Bee.buzz_temp (notify_all bee ns) = b /\
    Bee.fan_temp (notify_all bee ns) = f /\
    (Bee.is_buzzing (notify_all bee ns), Bee.is_fanning (notify_all bee ns))
      = match last_temperature seen ns with Some t => bee_flags b f t | None => idle end.
Proof.
  induction ns as [|[hive props] ns IH]; intros bee seen idle b f Hb Hf Hflags.
  - cbn. auto.
  - unfold notify_all, last_temperature. cbn [fold_left fst snd].
    destruct (handle_temperature_change_flags bee hive props) as (Hb' & Hf' & Hflags').
    apply IH.
    + congruence.
    + congruence.
    + rewrite Hflags'. destruct (bool_decide _); [congruence | exact Hflags].
Qed.
End BeeRuns.

(** X4: whatever hive notifications a bee receives, its two bounds stay as
    they were, and its flags are those that the temperature of the last
    notification naming [current_temp] gives it; they are its first flags
    when no notification names [current_temp]. *)
Theorem bee_follows_last_temperature {T} `{PyNum T}
    (bee : Bee.t T) (ns : list (Remote.beehive T * list string)) :
  let bee' := notify_all bee ns in
  Bee.buzz_temp bee' = Bee.buzz_temp bee /\
  Bee.fan_temp bee' = Bee.fan_temp bee /\
  (Bee.is_buzzing bee', Bee.is_fanning bee') =
    match last_temperature None ns with
    | Some t => bee_flags (Bee.buzz_temp bee) (Bee.fan_temp bee) t
    | None => (Bee.is_buzzing bee, Bee.is_fanning bee)
    end.
Proof.
  intros bee'. subst bee'.
  apply (notify_all_flags ns bee None (Bee.is_buzzing bee, Bee.is_fanning bee));
    reflexivity.
Qed.

(** ** Beehive: creating, destroying and changing one bee *)

Section BeehiveRoundTrips.
Context {T : Type} `{PyNum T}.

Lemma beehive_eta (hive : Beehive.t T) :
  {| Beehive.current_temp := Beehive.current_temp hive;
     Beehive._outside_temp := Beehive._outside_temp hive;
     Beehive.buzzing_impact := Beehive.buzzing_impact hive;
     Beehive.fanning_impact := Beehive.fanning_impact hive;
     Beehive.number_bees := Beehive.number_bees hive;
     Beehive.number_bees_buzzing := Beehive.number_bees_buzzing hive;
     Beehive.number_bees_fanning := Beehive.number_bees_fanning hive;
     Beehive.__known_bees := Beehive.__known_bees hive |} = hive.
Proof. destruct hive. reflexivity. Qed.
End BeehiveRoundTrips.

(** X5: a bee created under an identifier that the hive does not track and
    then destroyed leaves the hive exactly as it was before the two
    notifications, whatever flags the two snapshots carry; neither handler
    raises. *)
Theorem create_then_destroy_restores {T} `{PyNum T}
    (bee destroyed : Remote.bee) (hive : Beehive.t T) :
  Beehive.__known_bees hive !! Remote.guid bee = None ->
  Remote.guid destroyed = Remote.guid bee ->
  Beehive.deliver_all [Beehive.BeeCreated bee; Beehive.BeeDestroyed destroyed] hive
  = (inr tt, hive).
Proof.
  intros Hfresh Hguid.
  cbn [Beehive.deliver_all Beehive.deliver]. unfold bind.
  rewrite handle_new_bee_result.
  erewrite handle_dead_bee_result
    by (cbn; rewrite Hguid; apply lookup_insert_eq).
  cbn. unfold ret. f_equal.
  rewrite <- (beehive_eta hive) at 9. f_equal; try lia.
  rewrite Hguid. now apply delete_insert_id.
Qed.

(** Bee 7 in the hive of the tests. *)
Lemma create_then_destroy_restores_witness :
  Beehive.deliver_all
    [Beehive.BeeCreated (buzzing_bee 7); Beehive.BeeDestroyed (fanning_bee 7)]
    (test_hive (10 # 1)%Q (1 # 2)%Q (1 # 4)%Q)
  = (inr tt, test_hive (10 # 1)%Q (1 # 2)%Q (1 # 4)%Q).
Proof.
  apply (create_then_destroy_restores (buzzing_bee 7) (fanning_bee 7)
           (test_hive (10 # 1)%Q (1 # 2)%Q (1 # 4)%Q)); reflexivity.
Defined.

(** X6: for a tracked bee, a bee-changed notification delivered a second
    time changes nothing more, and a change followed by a change back to the
    snapshot that was tracked leaves the hive exactly as it was; none of the
    handlers raises. *)
Theorem change_twice_and_change_back {T} `{PyNum T}
    (bee prev_bee : Remote.bee) (props props' : list string) (hive : Beehive.t T) :
  Beehive.__known_bees hive !! Remote.guid bee = Some prev_bee ->
  Remote.guid prev_bee = Remote.guid bee ->
  props <> [] -> props' <> [] ->
  Beehive.deliver_all [Beehive.BeeChanged bee props; Beehive.BeeChanged bee props'] hive
  = Beehive.deliver_all [Beehive.BeeChanged bee props] hive /\
  Beehive.deliver_all [Beehive.BeeChanged bee props; Beehive.BeeChanged prev_bee props'] hive
  = (inr tt, hive).
Proof.
  intros Hprev Hguid Hprops Hprops'.
  cbn [Beehive.deliver_all Beehive.deliver]. unfold bind.
  rewrite (handle_bee_update_result _ _ _ _ Hprops Hprev). split.
  - erewrite (handle_bee_update_result bee bee props')
      by (try exact Hprops'; cbn; apply lookup_insert_eq).
    cbn. unfold ret. f_equal. f_equal; try lia.
    apply insert_insert_eq.
  - erewrite (handle_bee_update_result prev_bee bee props')
      by (try exact Hprops'; cbn; rewrite Hguid; apply lookup_insert_eq).
    cbn. unfold ret. f_equal.
    rewrite <- (beehive_eta hive) at 9. f_equal; try lia.
    rewrite Hguid, insert_insert_eq. now apply insert_id.
Qed.

(** Bee 1 of the hive of the tests stops buzzing and fans, and back. *)
Lemma change_twice_and_change_back_witness :
  Beehive.deliver_all
    [Beehive.BeeChanged (fanning_bee 1) ["is_buzzing"%string; "is_fanning"%string];
     Beehive.BeeChanged (buzzing_bee 1) ["is_buzzing"%string; "is_fanning"%string]]
    (test_hive (10 # 1)%Q (1 # 2)%Q (1 # 4)%Q)
  = (inr tt, test_hive (10 # 1)%Q (1 # 2)%Q (1 # 4)%Q).
Proof.
  apply (change_twice_and_change_back (fanning_bee 1) (buzzing_bee 1)
           ["is_buzzing"%string; "is_fanning"%string]
           ["is_buzzing"%string; "is_fanning"%string]
           (test_hive (10 # 1)%Q (1 # 2)%Q (1 # 4)%Q));
    [reflexivity | reflexivity | discriminate | discriminate].
Defined.

(** ** Beehive: the counters and the size of the mapping *)

Lemma count_flag_bounds flag (bees : gmap Z Remote.bee) :
  0 <= count_flag flag bees <= Z.of_nat (size bees).
Proof.
  unfold count_flag. split; [lia|].
  apply inj_le.
  rewrite <- (length_map_to_list bees), <- (length_fmap snd (map_to_list bees)).
  apply length_filter.
Qed.

Section BeehiveSizes.
Context {T : Type} `{PyNum T}.

Lemma deliver_sequenced_size (e : Beehive.event T) (es : list (Beehive.event T))
    (tracked : gset Z) (hive : Beehive.t T) :
  sequenced tracked (e :: es) = true ->
  dom (Beehive.__known_bees hive) = tracked ->
  counts_tracked hive ->
  counts_tracked (state_of (Beehive.deliver e hive)).
Proof.
  unfold counts_tracked, state_of. intros Hseq Hdom Hsize.
  destruct e as [bee|bee|bee props|temp props|previous_time new_time];
    cbn [sequenced] in Hseq; cbn [Beehive.deliver].
  - apply andb_true_iff in Hseq as [Hfresh _]. apply bool_decide_eq_true in Hfresh.
    assert (Hnone : Beehive.__known_bees hive !! Remote.guid bee = None).
    { apply not_elem_of_dom. now rewrite Hdom. }
    rewrite handle_new_bee_result. cbn.
    rewrite map_size_insert_None by exact Hnone. lia.
  - apply andb_true_iff in Hseq as [Hin _]. apply bool_decide_eq_true in Hin.
    rewrite <- Hdom in Hin. apply elem_of_dom in Hin as [tracked_bee Htracked].
    rewrite (handle_dead_bee_result _ _ _ Htracked). cbn.
    rewrite map_size_delete_Some by (rewrite Htracked; eauto).
    assert (size (Beehive.__known_bees hive) <> 0%nat).
    { intros Hz. apply map_size_empty_inv in Hz. rewrite Hz in Htracked.
      now rewrite lookup_empty in Htracked. }
    lia.
  - apply andb_true_iff in Hseq as [Hseq _].
    apply andb_true_iff in Hseq as [Hin Hprops].
    apply bool_decide_eq_true in Hin. apply negb_true_iff in Hprops.
    apply bool_decide_eq_false in Hprops.
    rewrite <- Hdom in Hin. apply elem_of_dom in Hin as [prev_bee Hprev].
    rewrite (handle_bee_update_result _ _ _ _ Hprops Hprev). cbn.
    rewrite map_size_insert_Some by (rewrite Hprev; eauto). exact Hsize.
  - apply andb_true_iff in Hseq as [Hprops _].
    apply negb_true_iff in Hprops. apply bool_decide_eq_false in Hprops.
    rewrite (handle_outside_temperature_update_result _ _ _ Hprops). exact Hsize.
  - apply andb_true_iff in Hseq as [Htime _].
    destruct previous_time as [previous_time|]; [|discriminate].
    apply Z.ltb_lt in Htime.
    rewrite (handle_time_update_result _ _ _ Htime). exact Hsize.
Qed.

Lemma deliver_all_sequenced_size (es : list (Beehive.event T)) :
  forall (tracked : gset Z) (hive : Beehive.t T),
    sequenced tracked es = true ->
    dom (Beehive.__known_bees hive) = tracked ->
    counters_agree hive ->
    counts_tracked hive ->
    counts_tracked (state_of (Beehive.deliver_all es hive)).
Proof.
  induction es as [|e es IH]; intros tracked hive Hseq Hdom Hagree Hsize.
  - exact Hsize.
  - pose proof (deliver_sequenced_size e es tracked hive Hseq Hdom Hsize) as Hsize'.
    destruct (deliver_sequenced e es tracked hive Hseq Hdom Hagree)
      as (tracked' & hive' & Hstep & Hseq' & Hdom' & Hagree' & _).
    cbn [Beehive.deliver_all]. unfold bind. rewrite Hstep.
    rewrite Hstep in Hsize'. unfold state_of in Hsize'. cbn [snd] in Hsize'.
    exact (IH tracked' hive' Hseq' Hdom' Hagree' Hsize').
Qed.
End BeehiveSizes.

(** X7: after a sequence of notifications delivered to a new hive in which
    bees are created under untracked identifiers, destroyed or changed only
    while tracked, changes name a property and the time increases,
    [number_bees] is the size of the mapping of tracked bees, and
    [number_bees_buzzing] and [number_bees_fanning] lie between 0 and
    [number_bees]. *)
Theorem beehive_counters_bounded {T} `{PyNum T}
    (start_temp buzzing_impact fanning_impact : T) (es : list (Beehive.event T)) :
  sequenced ∅ es = true ->
  let hive :=
    state_of (Beehive.deliver_all es
                (Beehive.__init__ start_temp buzzing_impact fanning_impact)) in
  Beehive.number_bees hive = Z.of_nat (size (Beehive.__known_bees hive)) /\
  0 <= Beehive.number_bees_buzzing hive <= Beehive.number_bees hive /\
  0 <= Beehive.number_bees_fanning hive <= Beehive.number_bees hive.
Proof.
  intros Hseq hive.
  assert (Hagree0 : counters_agree (Beehive.__init__ start_temp buzzing_impact fanning_impact)).
  { apply counters_agree_count. cbn. now rewrite !count_flag_empty. }
  assert (Hsize : counts_tracked hive).
  { apply (deliver_all_sequenced_size es ∅); [exact Hseq | apply dom_empty_L | exact Hagree0 |].
    unfold counts_tracked. cbn. now rewrite map_size_empty. }
  destruct (deliver_all_sequenced es ∅ _ Hseq dom_empty_L Hagree0) as (_ & _ & Hagree).
  apply counters_agree_count in Hagree as [Hbuzz Hfan].
  fold hive in Hbuzz, Hfan. unfold counts_tracked in Hsize.
  pose proof (count_flag_bounds Remote.is_buzzing (Beehive.__known_bees hive)).
  pose proof (count_flag_bounds Remote.is_fanning (Beehive.__known_bees hive)).
  split; [exact Hsize|]. lia.
Qed.

(** The bees of [test_adding_and_removing_bees]. *)
Lemma beehive_counters_bounded_witness :
  let es := [Beehive.BeeCreated (buzzing_bee 1); Beehive.BeeCreated (fanning_bee 2);
             Beehive.BeeCreated (fanning_bee 3);
             Beehive.BeeCreated {| Remote.guid := 4; Remote.is_buzzing := false;
                                   Remote.is_fanning := false |};
             Beehive.BeeDestroyed (buzzing_bee 1); Beehive.BeeDestroyed (fanning_bee 3)] in
  let hive :=
    state_of (Beehive.deliver_all es (Beehive.__init__ (10 # 1)%Q (1 # 4)%Q (1 # 4)%Q)) in
  Beehive.number_bees hive = Z.of_nat (size (Beehive.__known_bees hive)) /\
  0 <= Beehive.number_bees_buzzing hive <= Beehive.number_bees hive /\
  0 <= Beehive.number_bees_fanning hive <= Beehive.number_bees hive.
Proof.
  intros es hive.
  destruct (beehive_counters_bounded (10 # 1)%Q (1 # 4)%Q (1 # 4)%Q es)
    as (Hsize & Hbuzz & Hfan).
  - vm_compute. reflexivity.
  - split; [exact Hsize | split; [exact Hbuzz | exact Hfan]].
Defined.

(** ** Beehive: the temperature of a hive whose bees are idle *)

Lemma Qpower_succ_nat (a : Q) (k : nat) :
  ~ (a == 0)%Q -> (a ^ Z.of_nat (S k) == a * a ^ Z.of_nat k)%Q.
Proof.
  intros Ha. rewrite Nat2Z.inj_succ. unfold Z.succ.
  rewrite Qpower_plus by exact Ha. change (a ^ 1)%Q with a. ring.
Qed.

(** One time advance of a hive in which no bee buzzes or fans. *)
Lemma idle_hive_step (previous_time new_time : Z) (hive : Beehive.t Q) :
  Beehive.get_number_bees_buzzing hive = 0 ->
  Beehive.get_number_bees_fanning hive = 0 ->
  previous_time < new_time ->
  let hive' := state_of (Beehive.handle_time_update (Some previous_time) new_time hive) in
  Beehive._outside_temp hive' = Beehive._outside_temp hive /\
  Beehive.get_number_bees_buzzing hive' = 0 /\
  Beehive.get_number_bees_fanning hive' = 0 /\
  ((Beehive._outside_temp hive <= Beehive.current_temp hive)%Q ->
   (Beehive.current_temp hive' - Beehive._outside_temp hive
    == (6 # 5) * (Beehive.current_temp hive - Beehive._outside_temp hive))%Q) /\
  ((Beehive.current_temp hive <= Beehive._outside_temp hive)%Q ->
   (Beehive._outside_temp hive - Beehive.current_temp hive'
    == (4 # 5) * (Beehive._outside_temp hive - Beehive.current_temp hive))%Q).
Proof.
  intros Hbuzz Hfan Hlt hive'. subst hive'.
  rewrite (handle_time_update_result _ _ _ Hlt). unfold state_of. cbn [snd].
  split_and!; [reflexivity | exact Hbuzz | exact Hfan | |];
    cbn [Beehive.current_temp Beehive._outside_temp];
    rewrite Hbuzz, Hfan; unfold gtb; cbn [add sub mul of_Z ltb two_tenths Q_PyNum];
    change (inject_Z 0) with 0%Q;
    destruct (Qle_bool (Beehive._outside_temp hive) (Beehive.current_temp hive)) eqn:E;
    cbn [negb]; intros Hle.
  - ring.
  - assert (Hge : (Beehive._outside_temp hive <= Beehive.current_temp hive)%Q) by exact Hle.
    apply Qle_bool_iff in Hge. congruence.
  - apply Qle_bool_iff in E.
    assert (Heq : (Beehive.current_temp hive == Beehive._outside_temp hive)%Q)
      by (apply Qle_antisym; assumption).
    rewrite Heq. ring.
  - ring.
Qed.

(** X8: in exact arithmetic, while no tracked bee buzzes or fans and the
    outside temperature stays as it is, every time advance multiplies the
    distance between the hive and the outside temperature by 6/5 when the
    hive is at least as warm as outside (the hive moves away from the
    outside temperature) and by 4/5 when the hive is at most as warm
    (it approaches it), whatever the lengths of the advances. *)
Theorem idle_hive_drifts_geometrically (hive : Beehive.t Q) (steps : list (Z * Z)) :
  Beehive.get_number_bees_buzzing hive = 0 ->
  Beehive.get_number_bees_fanning hive = 0 ->
  increasing steps = true ->
  let hive' := advance_hive hive steps in
  let k := Z.of_nat (length steps) in
  Beehive._outside_temp hive' = Beehive._outside_temp hive /\
  ((Beehive._outside_temp hive <= Beehive.current_temp hive)%Q ->
   (Beehive.current_temp hive' - Beehive._outside_temp hive
    == (6 # 5) ^ k * (Beehive.current_temp hive - Beehive._outside_temp hive))%Q) /\
  ((Beehive.current_temp hive <= Beehive._outside_temp hive)%Q ->
   (Beehive._outside_temp hive - Beehive.current_temp hive'
    == (4 # 5) ^ k * (Beehive._outside_temp hive - Beehive.current_temp hive))%Q).
Proof.
  revert hive.
  induction steps as [|[p n] steps IH]; intros hive Hbuzz Hfan Hinc.
  - unfold advance_hive. cbn [fold_left length].
    change ((6 # 5) ^ Z.of_nat 0)%Q with 1%Q. change ((4 # 5) ^ Z.of_nat 0)%Q with 1%Q.
    split_and!; [reflexivity | intros _; ring | intros _; ring].
  - cbn [increasing forallb fst snd] in Hinc. apply andb_true_iff in Hinc as [Hlt Hinc].
    apply Z.ltb_lt in Hlt.
    destruct (idle_hive_step p n hive Hbuzz Hfan Hlt)
      as (Hout & Hbuzz' & Hfan' & Hwarm & Hcool).
    specialize (IH _ Hbuzz' Hfan' Hinc). cbn zeta in IH.
    destruct IH as (Hout' & Hwarm' & Hcool').
    unfold advance_hive in *. cbn [fold_left fst snd length].
    set (hive1 := state_of (Beehive.handle_time_update (Some p) n hive)) in *.
    rewrite Hout in Hout', Hwarm', Hcool'.
    split_and!; [exact Hout' | |]; intros Hle.
    + specialize (Hwarm Hle).
      rewrite Hwarm' by lra. rewrite Hwarm.
      rewrite (Qpower_succ_nat (6 # 5)) by discriminate. ring.
    + specialize (Hcool Hle).
      rewrite Hcool' by lra. rewrite Hcool.
      rewrite (Qpower_succ_nat (4 # 5)) by discriminate. ring.
Qed.

(** A hive at 20 with 10 outside and no bee, after two advances: at 24.4. *)
Lemma idle_hive_drifts_geometrically_witness :
  let hive :=
    {| Beehive.current_temp := (20 # 1)%Q; Beehive._outside_temp := (10 # 1)%Q;
       Beehive.buzzing_impact := (1 # 2)%Q; Beehive.fanning_impact := (1 # 2)%Q;
       Beehive.number_bees := 0; Beehive.number_bees_buzzing := 0;
       Beehive.number_bees_fanning := 0; Beehive.__known_bees := ∅ |} in
  (Beehive.current_temp (advance_hive hive [(0%Z, 1%Z); (1%Z, 5%Z)]) - (10 # 1)
   == (6 # 5) ^ 2 * ((20 # 1) - (10 # 1)))%Q.
Proof.
  intros hive.
  destruct (idle_hive_drifts_geometrically hive [(0%Z, 1%Z); (1%Z, 5%Z)])
    as (_ & Hwarm & _); [reflexivity | reflexivity | reflexivity |].
  apply Hwarm. discriminate.
Defined.

(** ** OutsideTemperature: the shape of the day *)

(** X9: on a constructed object the reported temperature has period 1440:
    a time advance to [t + 1440 * k] reports what a time advance to [t]
    reports, for every integer [t] and [k], negative ones included, and
    whatever time advances came before either of them. *)
Theorem outside_temperature_is_periodic {T} `{PyNum T} (min_temp max_temp : option T) :
  match OutsideTemperature.__init__ min_temp max_temp with
  | inr ot =>
      forall (earlier earlier' : list (Z * Z)) (p p' t k : Z),
        OutsideTemperature.current_temp
          (state_of (OutsideTemperature.handle_time_update (Some p) (t + 1440 * k)
                       (advance ot earlier)))
        = OutsideTemperature.current_temp
            (state_of (OutsideTemperature.handle_time_update (Some p') t
                         (advance ot earlier')))
  | inl _ => True
  end.
Proof.
  destruct (OutsideTemperature.__init__ min_temp max_temp) as [e|ot] eqn:Hinit; [exact I|].
  destruct min_temp as [lo|], max_temp as [hi|]; try discriminate.
  intros earlier earlier' p p' t k.
  destruct (handle_time_update_sample lo hi ot earlier p (t + 1440 * k) Hinit) as (_ & -> & _).
  destruct (handle_time_update_sample lo hi ot earlier' p' t Hinit) as (_ & -> & _).
  f_equal. rewrite (Z.mul_comm 1440 k). apply Z_mod_plus_full.
Qed.

Lemma Q_sample_within (lo hi : Q) (i : Z) :
  0 <= i < 1440 ->
  ((lo <= hi)%Q -> (lo <= sample lo hi i <= hi)%Q) /\
  ((hi <= lo)%Q -> (hi <= sample lo hi i <= lo)%Q).
Proof.
  intros Hi. unfold sample.
  pose proof (Q_increment_change lo hi) as Hinc.
  set (inc := div (sub hi lo) (div (of_Z (24 * 60)) (of_Z 2))) in *.
  cbn [add sub mul of_Z Q_PyNum].
  destruct (i <? 720) eqn:E.
  - apply Z.ltb_lt in E.
    assert (Hx : (0 <= inject_Z i)%Q /\ (inject_Z i <= 720 # 1)%Q).
    { split.
      - change 0%Q with (inject_Z 0). rewrite <- Zle_Qle. lia.
      - change (720 # 1)%Q with (inject_Z 720). rewrite <- Zle_Qle. lia. }
    destruct Hx as [Hx0 Hx1]. split; intros Hle; split; nra.
  - apply Z.ltb_ge in E.
    assert (Hx : (0 <= inject_Z (i - 720))%Q /\ (inject_Z (i - 720) <= 720 # 1)%Q).
    { split.
      - change 0%Q with (inject_Z 0). rewrite <- Zle_Qle. lia.
      - change (720 # 1)%Q with (inject_Z 720). rewrite <- Zle_Qle. lia. }
    destruct Hx as [Hx0 Hx1]. split; intros Hle; split; nra.
Qed.

(** X10: in exact arithmetic, every temperature that a constructed
    [OutsideTemperature] reports lies between [min_temp] and [max_temp],
    also when the object was built with [max_temp] below [min_temp]; the
    temperature at construction is [min_temp]. *)
Theorem outside_temperature_within_bounds (min_temp max_temp : Q) :
  match OutsideTemperature.__init__ (Some min_temp) (Some max_temp) with
  | inr ot =>
      (OutsideTemperature.current_temp ot == min_temp)%Q /\
      forall (earlier : list (Z * Z)) (p t : Z),
        let temp :=
          OutsideTemperature.current_temp
            (state_of (OutsideTemperature.handle_time_update (Some p) t (advance ot earlier))) in
        ((min_temp <= max_temp)%Q -> (min_temp <= temp <= max_temp)%Q) /\
        ((max_temp <= min_temp)%Q -> (max_temp <= temp <= min_temp)%Q)
  | inl _ => False
  end.
Proof.
  destruct (init_minute_temps min_temp max_temp)
    as (ot & Hinit & _ & _ & _ & Hfirst & _).
  rewrite Hinit. split.
  - rewrite Hfirst. unfold sample. change (0 <? 720) with true.
    cbn [add sub mul of_Z Q_PyNum]. change (inject_Z 0) with 0%Q. ring.
  - intros earlier p t temp. subst temp.
    destruct (handle_time_update_sample _ _ _ earlier p t Hinit) as (_ & -> & _).
    apply Q_sample_within. apply Z.mod_pos_bound. reflexivity.
Qed.

Lemma Q_sample_mirror (lo hi : Q) (i : Z) :
  0 < i < 1440 -> (sample lo hi (1440 - i) == sample lo hi i)%Q.
Proof.
  intros Hi. unfold sample.
  pose proof (Q_increment_change lo hi) as Hinc.
  set (inc := div (sub hi lo) (div (of_Z (24 * 60)) (of_Z 2))) in *.
  cbn [add sub mul of_Z Q_PyNum].
  destruct (i <? 720) eqn:E; destruct (1440 - i <? 720) eqn:E'.
  - apply Z.ltb_lt in E, E'. lia.
  - replace (1440 - i - 720) with (720 - i) by lia.
    unfold Z.sub. rewrite inject_Z_plus, inject_Z_opp.
    change (inject_Z 720) with (720 # 1)%Q. lra.
  - replace (1440 - i) with (720 - (i - 720)) by lia.
    unfold Z.sub at 1. rewrite inject_Z_plus, inject_Z_opp.
    change (inject_Z 720) with (720 # 1)%Q. lra.
  - apply Z.ltb_ge in E, E'. assert (i = 720) as -> by lia. reflexivity.
Qed.

Lemma Q_sample_step (lo hi : Q) (i : Z) :
  0 <= i < 1440 ->
  (sample lo hi ((i + 1) mod 1440) - sample lo hi i
   == if i <? 720
      then div (sub hi lo) (div (of_Z (24 * 60)) (of_Z 2))
      else - div (sub hi lo) (div (of_Z (24 * 60)) (of_Z 2)))%Q.
Proof.
  intros Hi.
  pose proof (Q_increment_change lo hi) as Hinc.
  destruct (decide (i = 1439)) as [->|Hlast].
  - change ((1439 + 1) mod 1440) with 0. unfold sample.
    change (0 <? 720) with true. change (1439 <? 720) with false.
    set (inc := div (sub hi lo) (div (of_Z (24 * 60)) (of_Z 2))) in *.
    cbn [add sub mul of_Z Q_PyNum].
    change (inject_Z (1439 - 720)) with (719 # 1)%Q. change (inject_Z 0) with 0%Q. lra.
  - rewrite Z.mod_small by lia. unfold sample.
    set (inc := div (sub hi lo) (div (of_Z (24 * 60)) (of_Z 2))) in *.
    cbn [add sub mul of_Z Q_PyNum].
    destruct (i <? 720) eqn:E; destruct (i + 1 <? 720) eqn:E'.
    + rewrite inject_Z_plus. change (inject_Z 1) with 1%Q. ring.
    + apply Z.ltb_lt in E. apply Z.ltb_ge in E'. assert (i = 719) as -> by lia.
      change (inject_Z (719 + 1 - 720)) with 0%Q. change (inject_Z 719) with (719 # 1)%Q. lra.
    + apply Z.ltb_ge in E. apply Z.ltb_lt in E'. lia.
    + replace (i + 1 - 720) with (i - 720 + 1) by lia.
      rewrite inject_Z_plus. change (inject_Z 1) with 1%Q. ring.
Qed.

(** X11: in exact arithmetic, the day of a constructed [OutsideTemperature]
    is symmetric, the temperature reported for time [- t] being the one
    reported for [t], and from each minute to the next the temperature
    changes by exactly one increment: it rises by [__increment_change] when
    [t mod 1440] is below 720 and falls by it otherwise, the step from
    minute 1439 to minute 0 of the next day included. *)
Theorem outside_temperature_mirror_and_step (min_temp max_temp : Q) :
  match OutsideTemperature.__init__ (Some min_temp) (Some max_temp) with
  | inr ot =>
      forall (p t : Z),
        let temp_at t :=
          OutsideTemperature.current_temp
            (state_of (OutsideTemperature.handle_time_update (Some p) t ot)) in
        (temp_at (- t)%Z == temp_at t)%Q /\
        (temp_at (t + 1)%Z - temp_at t
         == if (t mod 1440 <? 720)%Z
            then OutsideTemperature.__increment_change ot
            else - OutsideTemperature.__increment_change ot)%Q
  | inl _ => False
  end.
Proof.
  destruct (init_minute_temps min_temp max_temp)
    as (ot & Hinit & _ & _ & Hinc & _).
  rewrite Hinit. intros p t temp_at. subst temp_at. cbn beta.
  destruct (handle_time_update_sample _ _ _ [] p t Hinit) as (_ & Ht & _).
  destruct (handle_time_update_sample _ _ _ [] p (- t) Hinit) as (_ & Hneg & _).
  destruct (handle_time_update_sample _ _ _ [] p (t + 1) Hinit) as (_ & Hnext & _).
  unfold advance in Ht, Hneg, Hnext. cbn [fold_left] in Ht, Hneg, Hnext.
  rewrite Ht, Hneg, Hnext, Hinc.
  assert (Hmod : 0 <= t mod 1440 < 1440) by (apply Z.mod_pos_bound; reflexivity).
  split.
  - destruct (decide (t mod 1440 = 0)) as [Hz|Hnz].
    + rewrite Z.mod_opp_l_z by (discriminate || exact Hz). now rewrite Hz.
    + rewrite Z.mod_opp_l_nz by (discriminate || exact Hnz).
      apply Q_sample_mirror. lia.
  - replace ((t + 1) mod 1440) with ((t mod 1440 + 1) mod 1440)
      by (rewrite Z.add_mod_idemp_l by discriminate; reflexivity).
    apply Q_sample_step. exact Hmod.
Qed.

(** X12: constructing an [OutsideTemperature] from arguments that are
    [None] or numbers of the type of floats fails exactly when one of the
    two is [None], with an [AssertionError].  Any two numbers are accepted,
    in whatever order they are and in every arithmetic, binary64 included:
    the object keeps them, its table has 1440 entries, and its temperature
    is the first entry, [min_temp + increment * 0].  In exact arithmetic
    that is [min_temp].  In binary64 it need not be: between [-1e308] and
    [1e308] the increment overflows to infinity and the temperature of the
    new object is NaN. *)
Theorem outside_temperature_init_failure_modes :
  (forall (T : Type) (N : PyNum T) (min_temp max_temp : option T),
     match OutsideTemperature.__init__ min_temp max_temp with
     | inr ot =>
         exists lo hi, min_temp = Some lo /\ max_temp = Some hi /\
           OutsideTemperature.min_temp ot = lo /\
           OutsideTemperature.max_temp ot = hi /\
           length (OutsideTemperature.__minute_temps ot) = 1440%nat /\
           OutsideTemperature.__minute_temps ot !! 0%nat
           = Some (OutsideTemperature.current_temp ot) /\
           OutsideTemperature.current_temp ot
           = add lo (mul (OutsideTemperature.__increment_change ot) (of_Z 0))
     | inl e => e = AssertionError /\ (min_temp = None \/ max_temp = None)
     end) /\
  (forall lo hi : Q,
     match OutsideTemperature.__init__ (Some lo) (Some hi) with
     | inr ot => (OutsideTemperature.current_temp ot == lo)%Q
     | inl _ => False
     end) /\
  match OutsideTemperature.__init__
          (Some (-0x1.1ccf385ebc8ap+1023)%float) (Some 0x1.1ccf385ebc8ap+1023%float) with
  | inr ot =>
      OutsideTemperature.__increment_change ot = PrimFloat.infinity /\
      PrimFloat.is_nan (OutsideTemperature.current_temp ot) = true
  | inl _ => False
  end.
Proof.
  split; [|split].
  - intros T N min_temp max_temp.
    destruct min_temp as [lo|]; [|cbn; auto].
    destruct max_temp as [hi|]; [|cbn; auto].
    destruct (init_minute_temps lo hi)
      as (ot & Hinit & Hlo & Hhi & Hinc & Hfirst & Hlen & Hlook).
    rewrite Hinit. exists lo, hi. split_and!; try reflexivity; try assumption.
    + rewrite Hfirst. apply (Hlook 0). lia.
    + rewrite Hfirst, Hinc. reflexivity.
  - intros lo hi.
    destruct (init_minute_temps lo hi) as (ot & Hinit & _ & _ & _ & Hfirst & _).
    rewrite Hinit, Hfirst. unfold sample. change (0 <? 720) with true.
    cbn [add sub mul of_Z Q_PyNum]. change (inject_Z 0) with 0%Q. ring.
  - vm_compute. split; reflexivity.
Qed.

(** ** BeehiveDisplayModel: the bounds on display *)

Lemma Q_py_min_spec (a b : Q) :
  (py_min a b <= a)%Q /\ (py_min a b <= b)%Q /\ (py_min a b = a \/ py_min a b = b).
Proof.
  unfold py_min. destruct (ltb b a) eqn:E.
  - apply Q_ltb_lt in E.
    split; [apply Qlt_le_weak; exact E | split; [apply Qle_refl | right; reflexivity]].
  - apply Q_ltb_ge in E.
    split; [apply Qle_refl | split; [exact E | left; reflexivity]].
Qed.

Lemma Q_py_max_spec (a b : Q) :
  (a <= py_max a b)%Q /\ (b <= py_max a b)%Q /\ (py_max a b = a \/ py_max a b = b).
Proof.
  unfold py_max, gtb. destruct (ltb a b) eqn:E.
  - apply Q_ltb_lt in E.
    split; [apply Qlt_le_weak; exact E | split; [apply Qle_refl | right; reflexivity]].
  - apply Q_ltb_ge in E.
    split; [apply Qle_refl | split; [exact E | left; reflexivity]].
Qed.

Lemma Q_fold_py_min (xs : list Q) (a : Q) :
  (fold_left py_min xs a <= a)%Q /\
  (forall x, In x xs -> (fold_left py_min xs a <= x)%Q) /\
  In (fold_left py_min xs a) (a :: xs).
Proof.
  revert a. induction xs as [|x xs IH]; intros a; cbn [fold_left].
  - split; [apply Qle_refl | split; [intros x [] | left; reflexivity]].
  - destruct (IH (py_min a x)) as (Hle & Hall & Hin).
    destruct (Q_py_min_spec a x) as (Ha & Hx & Hor).
    split; [eapply Qle_trans; eassumption|].
    split.
    + intros y [<-|Hy]; [eapply Qle_trans; eassumption | apply Hall, Hy].
    + destruct Hin as [Hin|Hin].
      * rewrite <- Hin. destruct Hor as [->| ->]; [left | right; left]; reflexivity.
      * right; right; exact Hin.
Qed.

Lemma Q_fold_py_max (xs : list Q) (a : Q) :
  (a <= fold_left py_max xs a)%Q /\
  (forall x, In x xs -> (x <= fold_left py_max xs a)%Q) /\
  In (fold_left py_max xs a) (a :: xs).
Proof.
  revert a. induction xs as [|x xs IH]; intros a; cbn [fold_left].
  - split; [apply Qle_refl | split; [intros x [] | left; reflexivity]].
  - destruct (IH (py_max a x)) as (Hle & Hall & Hin).
    destruct (Q_py_max_spec a x) as (Ha & Hx & Hor).
    split; [eapply Qle_trans; eassumption|].
    split.
    + intros y [<-|Hy]; [eapply Qle_trans; eassumption | apply Hall, Hy].
    + destruct Hin as [Hin|Hin].
      * rewrite <- Hin. destruct Hor as [->| ->]; [left | right; left]; reflexivity.
      * right; right; exact Hin.
Qed.

Lemma Q_tracks_extremes (lo0 hi0 : Q) (xs : list Q) :
  tracks_extremes Qle lo0 hi0 xs (fold_left py_min xs lo0) (fold_left py_max xs hi0).
Proof.
  destruct (Q_fold_py_min xs lo0) as (H1 & H2 & H3).
  destruct (Q_fold_py_max xs hi0) as (H4 & H5 & H6).
  unfold tracks_extremes.
  split; [exact H1|]. split; [exact H4|].
  split; [intros x Hx; split; [apply H2, Hx | apply H5, Hx]|].
  split; [exact H3 | exact H6].
Qed.

Lemma Z_fold_py_min_int (xs : list Z) (a : Z) :
  fold_left py_min_int xs a <= a /\
  (forall x, In x xs -> fold_left py_min_int xs a <= x) /\
  In (fold_left py_min_int xs a) (a :: xs).
Proof.
  revert a. induction xs as [|x xs IH]; intros a; cbn [fold_left].
  - split; [lia | split; [intros x [] | left; reflexivity]].
  - destruct (IH (py_min_int a x)) as (Hle & Hall & Hin).
    assert (Hm : py_min_int a x <= a /\ py_min_int a x <= x
                 /\ (py_min_int a x = a \/ py_min_int a x = x)).
    { unfold py_min_int. destruct (Z.ltb_spec x a); lia. }
    destruct Hm as (Ha & Hx & Hor).
    split; [lia|]. split.
    + intros y [<-|Hy]; [lia | apply Hall, Hy].
    + destruct Hin as [Hin|Hin].
      * rewrite <- Hin. destruct Hor as [->| ->]; [left | right; left]; reflexivity.
      * right; right; exact Hin.
Qed.

Lemma Z_fold_py_max_int (xs : list Z) (a : Z) :
  a <= fold_left py_max_int xs a /\
  (forall x, In x xs -> x <= fold_left py_max_int xs a) /\
  In (fold_left py_max_int xs a) (a :: xs).
Proof.
  revert a. induction xs as [|x xs IH]; intros a; cbn [fold_left].
  - split; [lia | split; [intros x [] | left; reflexivity]].
  - destruct (IH (py_max_int a x)) as (Hle & Hall & Hin).
    assert (Hm : a <= py_max_int a x /\ x <= py_max_int a x
                 /\ (py_max_int a x = a \/ py_max_int a x = x)).
    { unfold py_max_int. rewrite Z.gtb_ltb. destruct (Z.ltb_spec a x); lia. }
    destruct Hm as (Ha & Hx & Hor).
    split; [lia|]. split.
    + intros y [<-|Hy]; [lia | apply Hall, Hy].
    + destruct Hin as [Hin|Hin].
      * rewrite <- Hin. destruct Hor as [->| ->]; [left | right; left]; reflexivity.
      * right; right; exact Hin.
Qed.

Lemma Z_tracks_extremes (lo0 hi0 : Z) (xs : list Z) :
  tracks_extremes Z.le lo0 hi0 xs (fold_left py_min_int xs lo0) (fold_left py_max_int xs hi0).
Proof.
  destruct (Z_fold_py_min_int xs lo0) as (H1 & H2 & H3).
  destruct (Z_fold_py_max_int xs hi0) as (H4 & H5 & H6).
  unfold tracks_extremes.
  split; [exact H1|]. split; [exact H4|].
  split; [intros x Hx; split; [apply H2, Hx | apply H5, Hx]|].
  split; [exact H3 | exact H6].
Qed.

Lemma display_deliver_all_cons {T} `{PyNum T}
    (e : DisplayHandlers.event T) es (d : BeehiveDisplayModel.t T) :
  DisplayHandlers.deliver_all (e :: es) d
  = match DisplayHandlers.deliver e d with
    | (inl x, d1) => (inl x, d1)
    | (inr _, d1) => DisplayHandlers.deliver_all es d1
    end.
Proof. reflexivity. Qed.

(** What one notification does to the object. *)
Lemma display_deliver_result {T} `{PyNum T}
    (e : DisplayHandlers.event T) (d : BeehiveDisplayModel.t T) :
  if passes_assertion e
  then exists d1, DisplayHandlers.deliver e d = (inr tt, d1) /\
    BeehiveDisplayModel.min_hive_temp d1
    = fold_left py_min (map RemoteBeehive.current_temp (hive_snapshots [e]))
        (BeehiveDisplayModel.min_hive_temp d) /\
    BeehiveDisplayModel.max_hive_temp d1
    = fold_left py_max (map RemoteBeehive.current_temp (hive_snapshots [e]))
        (BeehiveDisplayModel.max_hive_temp d) /\
    BeehiveDisplayModel.min_outside_temp d1
    = fold_left py_min (outside_readings [e]) (BeehiveDisplayModel.min_outside_temp d) /\
    BeehiveDisplayModel.max_outside_temp d1
    = fold_left py_max (outside_readings [e]) (BeehiveDisplayModel.max_outside_temp d) /\
    BeehiveDisplayModel.min_number_bees d1
    = fold_left py_min_int (map RemoteBeehive.number_bees (hive_snapshots [e]))
        (BeehiveDisplayModel.min_number_bees d) /\
    BeehiveDisplayModel.max_number_bees d1
    = fold_left py_max_int (map RemoteBeehive.number_bees (hive_snapshots [e]))
        (BeehiveDisplayModel.max_number_bees d) /\
    BeehiveDisplayModel.min_number_bees_fanning d1
    = fold_left py_min_int (map RemoteBeehive.number_bees_fanning (hive_snapshots [e]))
        (BeehiveDisplayModel.min_number_bees_fanning d) /\
    BeehiveDisplayModel.max_number_bees_fanning d1
    = fold_left py_max_int (map RemoteBeehive.number_bees_fanning (hive_snapshots [e]))
        (BeehiveDisplayModel.max_number_bees_fanning d) /\
    BeehiveDisplayModel.min_number_bees_buzzing d1
    = fold_left py_min_int (map RemoteBeehive.number_bees_buzzing (hive_snapshots [e]))
        (BeehiveDisplayModel.min_number_bees_buzzing d) /\
    BeehiveDisplayModel.max_number_bees_buzzing d1
    = fold_left py_max_int (map RemoteBeehive.number_bees_buzzing (hive_snapshots [e]))
        (BeehiveDisplayModel.max_number_bees_buzzing d)
  else DisplayHandlers.deliver e d = (inl AssertionError, d).
Proof.
  destruct e as [b [l|] | t [[|p l]|] | [p|] n]; cbn [passes_assertion is_not_None truthy_list];
    try reflexivity;
    (match goal with |- exists d1, ?m = _ /\ _ => exists (state_of m) end;
     vm_compute; split_and!; reflexivity).
Qed.

Lemma display_deliver_all_handled {T} `{PyNum T}
    (es : list (DisplayHandlers.event T)) (d : BeehiveDisplayModel.t T) :
  DisplayHandlers.deliver_all es d
  = (if forallb passes_assertion es then inr tt else inl AssertionError,
     state_of (DisplayHandlers.deliver_all (handled es) d)).
Proof.
  revert d. induction es as [|e es IH]; intros d; [reflexivity|].
  rewrite display_deliver_all_cons.
  pose proof (display_deliver_result e d) as He.
  cbn [forallb handled]. destruct (passes_assertion e) eqn:E.
  - destruct He as (d1 & Hd & _). rewrite display_deliver_all_cons, Hd.
    cbn [andb]. apply IH.
  - rewrite He. reflexivity.
Qed.

Lemma hive_snapshots_cons {T} `{PyNum T} (e : DisplayHandlers.event T) es :
  hive_snapshots (e :: es) = hive_snapshots [e] ++ hive_snapshots es.
Proof. unfold hive_snapshots. cbn [flat_map]. rewrite app_nil_r. reflexivity. Qed.

Lemma outside_readings_cons {T} `{PyNum T} (e : DisplayHandlers.event T) es :
  outside_readings (e :: es) = outside_readings [e] ++ outside_readings es.
Proof. unfold outside_readings. cbn [flat_map]. rewrite app_nil_r. reflexivity. Qed.

(** Each bound on display is the fold of [min] or [max] over the readings
    of the notifications handled. *)
Lemma display_deliver_all_folds {T} `{PyNum T}
    (es : list (DisplayHandlers.event T)) (d : BeehiveDisplayModel.t T) :
  let d' := state_of (DisplayHandlers.deliver_all es d) in
  let seen := hive_snapshots (handled es) in
  BeehiveDisplayModel.min_hive_temp d'
  = fold_left py_min (map RemoteBeehive.current_temp seen)
      (BeehiveDisplayModel.min_hive_temp d) /\
  BeehiveDisplayModel.max_hive_temp d'
  = fold_left py_max (map RemoteBeehive.current_temp seen)
      (BeehiveDisplayModel.max_hive_temp d) /\
  BeehiveDisplayModel.min_outside_temp d'
  = fold_left py_min (outside_readings (handled es)) (BeehiveDisplayModel.min_outside_temp d) /\
  BeehiveDisplayModel.max_outside_temp d'
  = fold_left py_max (outside_readings (handled es)) (BeehiveDisplayModel.max_outside_temp d) /\
  BeehiveDisplayModel.min_number_bees d'
  = fold_left py_min_int (map RemoteBeehive.number_bees seen)
      (BeehiveDisplayModel.min_number_bees d) /\
  BeehiveDisplayModel.max_number_bees d'
  = fold_left py_max_int (map RemoteBeehive.number_bees seen)
      (BeehiveDisplayModel.max_number_bees d) /\
  BeehiveDisplayModel.min_number_bees_fanning d'
  = fold_left py_min_int (map RemoteBeehive.number_bees_fanning seen)
      (BeehiveDisplayModel.min_number_bees_fanning d) /\
  BeehiveDisplayModel.max_number_bees_fanning d'
  = fold_left py_max_int (map RemoteBeehive.number_bees_fanning seen)
      (BeehiveDisplayModel.max_number_bees_fanning d) /\
  BeehiveDisplayModel.min_number_bees_buzzing d'
  = fold_left py_min_int (map RemoteBeehive.number_bees_buzzing seen)
      (BeehiveDisplayModel.min_number_bees_buzzing d) /\
  BeehiveDisplayModel.max_number_bees_buzzing d'
  = fold_left py_max_int (map RemoteBeehive.number_bees_buzzing seen)
      (BeehiveDisplayModel.max_number_bees_buzzing d).
Proof.
  revert d. induction es as [|e es IH]; intros d.
  - cbv zeta. split_and!; reflexivity.
  - cbv zeta. rewrite display_deliver_all_cons.
    pose proof (display_deliver_result e d) as He.
    cbn [handled]. destruct (passes_assertion e) eqn:E.
    + destruct He as (d1 & Hd & H1 & H2 & H3 & H4 & H5 & H6 & H7 & H8 & H9 & H10).
      rewrite Hd. specialize (IH d1). cbv zeta in IH.
      destruct IH as (I1 & I2 & I3 & I4 & I5 & I6 & I7 & I8 & I9 & I10).
      rewrite hive_snapshots_cons, outside_readings_cons, !map_app, !fold_left_app.
      rewrite <- H1, <- H2, <- H3, <- H4, <- H5, <- H6, <- H7, <- H8, <- H9, <- H10.
      split_and!; assumption.
    + rewrite He. split_and!; reflexivity.
Qed.

(** X13: in exact arithmetic and from any state of the display model, the
    minimum and maximum hive temperature on display after a sequence of
    notifications are no tighter than before, enclose the temperature of
    every hive snapshot handled, and each is the earlier bound or one of
    those temperatures; the same holds of the outside temperature bounds and
    the outside temperatures handled. *)
Theorem display_tracks_temperature_extremes
    (d : BeehiveDisplayModel.t Q) (es : list (DisplayHandlers.event Q)) :
  let d' := state_of (DisplayHandlers.deliver_all es d) in
  tracks_extremes Qle
    (BeehiveDisplayModel.min_hive_temp d) (BeehiveDisplayModel.max_hive_temp d)
    (map RemoteBeehive.current_temp (hive_snapshots (handled es)))
    (BeehiveDisplayModel.min_hive_temp d') (BeehiveDisplayModel.max_hive_temp d') /\
  tracks_extremes Qle
    (BeehiveDisplayModel.min_outside_temp d) (BeehiveDisplayModel.max_outside_temp d)
    (outside_readings (handled es))
    (BeehiveDisplayModel.min_outside_temp d') (BeehiveDisplayModel.max_outside_temp d').
Proof.
  destruct (display_deliver_all_folds es d) as (H1 & H2 & H3 & H4 & _).
  cbv zeta. rewrite H1, H2, H3, H4.
  split; apply Q_tracks_extremes.
Qed.

(** X14: for every number type and from any state of the display model,
    the bounds on display of the number of bees, of bees fanning and of
    bees buzzing after a sequence of notifications are no tighter than
    before, enclose the counter of every hive snapshot handled, and each is
    the earlier bound or one of those counters. *)
Theorem display_tracks_counter_extremes {T} `{PyNum T}
    (d : BeehiveDisplayModel.t T) (es : list (DisplayHandlers.event T)) :
  let d' := state_of (DisplayHandlers.deliver_all es d) in
  let seen := hive_snapshots (handled es) in
  tracks_extremes Z.le
    (BeehiveDisplayModel.min_number_bees d) (BeehiveDisplayModel.max_number_bees d)
    (map RemoteBeehive.number_bees seen)
    (BeehiveDisplayModel.min_number_bees d') (BeehiveDisplayModel.max_number_bees d') /\
  tracks_extremes Z.le
    (BeehiveDisplayModel.min_number_bees_fanning d)
    (BeehiveDisplayModel.max_number_bees_fanning d)
    (map RemoteBeehive.number_bees_fanning seen)
    (BeehiveDisplayModel.min_number_bees_fanning d')
    (BeehiveDisplayModel.max_number_bees_fanning d') /\
  tracks_extremes Z.le
    (BeehiveDisplayModel.min_number_bees_buzzing d)
    (BeehiveDisplayModel.max_number_bees_buzzing d)
    (map RemoteBeehive.number_bees_buzzing seen)
    (BeehiveDisplayModel.min_number_bees_buzzing d')
    (BeehiveDisplayModel.max_number_bees_buzzing d').
Proof.
  destruct (display_deliver_all_folds es d)
    as (_ & _ & _ & _ & H5 & H6 & H7 & H8 & H9 & H10).
  cbv zeta. rewrite H5, H6, H7, H8, H9, H10.
  split; [|split]; apply Z_tracks_extremes.
Qed.

(** X15: a display model rejects a notification only by the assertion on
    its arguments, before any assignment: a hive change whose list of
    changed properties is [None], an outside temperature change whose list
    is [None] or empty, a time advance whose previous time is [None].  The
    rejected notification leaves the object as it was, every other
    notification is handled whatever the object and the values reported; so
    a sequence completes exactly when all its notifications pass, and
    otherwise stops with [AssertionError] in the state reached by the
    notifications before the first that does not. *)
Theorem display_rejects_before_assigning {T} `{PyNum T} :
  (forall (e : DisplayHandlers.event T) (d : BeehiveDisplayModel.t T),
     if passes_assertion e
     then raised (DisplayHandlers.deliver e d) = None
     else DisplayHandlers.deliver e d = (inl AssertionError, d)) /\
  (forall (es : list (DisplayHandlers.event T)) (d : BeehiveDisplayModel.t T),
     DisplayHandlers.deliver_all es d
     = (if forallb passes_assertion es then inr tt else inl AssertionError,
        state_of (DisplayHandlers.deliver_all (handled es) d))).
Proof.
  split.
  - intros e d. pose proof (display_deliver_result e d) as He.
    destruct (passes_assertion e); [|exact He].
    destruct He as (d1 & -> & _). reflexivity.
  - apply display_deliver_all_handled.
Qed.

Lemma Q_sentinel_max (hi0 : Q) (xs : list Q) (m : Q) :
  (hi0 <= m)%Q -> (forall x, In x xs -> (x <= m)%Q) -> In m (hi0 :: xs) ->
  ((exists x, In x xs /\ (hi0 <= x)%Q) -> greatest xs m) /\
  ((forall x, In x xs -> (x < hi0)%Q) -> m = hi0).
Proof.
  intros Hlo Hall Hin. split.
  - intros (x & Hx & Hge). split; [|exact Hall].
    destruct Hin as [<-|Hin].
    + exists x. split; [exact Hx|]. apply Qle_antisym; [exact Hge | apply Hall, Hx].
    + exists m. split; [exact Hin | reflexivity].
  - intros Hneg. destruct Hin as [<-|Hin]; [reflexivity|].
    exfalso. apply (Qlt_not_le _ _ (Hneg m Hin) Hlo).
Qed.

Lemma Q_sentinel_min (lo0 : Q) (xs : list Q) (m : Q) :
  (m <= lo0)%Q -> (forall x, In x xs -> (m <= x)%Q) -> In m (lo0 :: xs) ->
  ((exists x, In x xs /\ (x <= lo0)%Q) -> least xs m) /\
  ((forall x, In x xs -> (lo0 < x)%Q) -> m = lo0).
Proof.
  intros Hlo Hall Hin. split.
  - intros (x & Hx & Hge). split; [|exact Hall].
    destruct Hin as [<-|Hin].
    + exists x. split; [exact Hx|]. apply Qle_antisym; [apply Hall, Hx | exact Hge].
    + exists m. split; [exact Hin | reflexivity].
  - intros Hpos. destruct Hin as [<-|Hin]; [reflexivity|].
    exfalso. apply (Qlt_not_le _ _ (Hpos m Hin) Hlo).
Qed.

(** X16: on a display model as constructed, in exact arithmetic, the
    maximum hive temperature on display is the greatest temperature
    reported once one of them is at least 0, and stays 0, a temperature
    never reported, while all of them are below 0; the minimum is the least
    temperature reported once one of them is at most 1000000, and stays
    1000000 while all of them are above it.  The same holds of the outside
    temperature bounds. *)
Theorem fresh_display_sentinels (es : list (DisplayHandlers.event Q)) :
  let d' := state_of (DisplayHandlers.deliver_all es BeehiveDisplayModel.__init__) in
  let hive := map RemoteBeehive.current_temp (hive_snapshots (handled es)) in
  let outside := outside_readings (handled es) in
  (((exists x, In x hive /\ (0 <= x)%Q) -> greatest hive (BeehiveDisplayModel.max_hive_temp d')) /\
   ((forall x, In x hive -> (x < 0)%Q) -> BeehiveDisplayModel.max_hive_temp d' = 0%Q)) /\
  (((exists x, In x hive /\ (x <= 1000000)%Q) -> least hive (BeehiveDisplayModel.min_hive_temp d')) /\
   ((forall x, In x hive -> (1000000 < x)%Q) -> BeehiveDisplayModel.min_hive_temp d' = 1000000%Q)) /\
  (((exists x, In x outside /\ (0 <= x)%Q) ->
    greatest outside (BeehiveDisplayModel.max_outside_temp d')) /\
   ((forall x, In x outside -> (x < 0)%Q) -> BeehiveDisplayModel.max_outside_temp d' = 0%Q)) /\
  (((exists x, In x outside /\ (x <= 1000000)%Q) ->
    least outside (BeehiveDisplayModel.min_outside_temp d')) /\
   ((forall x, In x outside -> (1000000 < x)%Q) ->
    BeehiveDisplayModel.min_outside_temp d' = 1000000%Q)).
Proof.
  destruct (display_deliver_all_folds es (BeehiveDisplayModel.__init__ (T := Q)))
    as (H1 & H2 & H3 & H4 & _).
  cbv zeta. rewrite H1, H2, H3, H4.
  change (BeehiveDisplayModel.min_hive_temp BeehiveDisplayModel.__init__) with 1000000%Q.
  change (BeehiveDisplayModel.max_hive_temp BeehiveDisplayModel.__init__) with 0%Q.
  change (BeehiveDisplayModel.min_outside_temp BeehiveDisplayModel.__init__) with 1000000%Q.
  change (BeehiveDisplayModel.max_outside_temp BeehiveDisplayModel.__init__) with 0%Q.
  split; [|split; [|split]].
  - destruct (Q_fold_py_max (map RemoteBeehive.current_temp (hive_snapshots (handled es))) 0%Q)
      as (A & B & C).
    apply Q_sentinel_max; assumption.
  - destruct (Q_fold_py_min (map RemoteBeehive.current_temp (hive_snapshots (handled es)))
                1000000%Q) as (A & B & C).
    apply Q_sentinel_min; assumption.
  - destruct (Q_fold_py_max (outside_readings (handled es)) 0%Q) as (A & B & C).
    apply Q_sentinel_max; assumption.
  - destruct (Q_fold_py_min (outside_readings (handled es)) 1000000%Q) as (A & B & C).
    apply Q_sentinel_min; assumption.
Qed.

(** ** The two applications *)

Lemma py_range_length (start stop step : Z) :
  length (BeehiveApp.py_range start stop step)
  = Z.to_nat (if start <? stop then (stop - start - 1) / step + 1 else 0).
Proof.
  unfold BeehiveApp.py_range. rewrite length_fmap, length_seqZ. reflexivity.
Qed.

Lemma main_loop_rounds (max_steps : Z) :
  BeehiveApp.main_loop max_steps
  = rounds (length (BeehiveApp.py_range 1 max_steps 100)) 100.
Proof.
  unfold BeehiveApp.main_loop. cbv zeta.
  generalize (BeehiveApp.py_range 1 max_steps 100). intros l.
  induction l as [|x l IH] using rev_ind; [reflexivity|].
  rewrite fold_left_app, length_app, Nat.add_comm. cbn [fold_left length Nat.add rounds].
  rewrite IH. reflexivity.
Qed.

Lemma steps_requested_rounds (n : nat) (steps : Z) :
  steps_requested (rounds n steps) = Z.of_nat n * steps.
Proof.
  induction n as [|n IH]; [reflexivity|].
  unfold steps_requested in *. cbn [rounds]. rewrite fold_left_app, IH.
  cbn [fold_left]. lia.
Qed.

(** X17: the loop at the end of [BeehiveApp.main] makes
    [(max_steps + 98) / 100] rounds (none when that is not positive) of one
    advance of 100 steps followed by one update of the display.  So it
    makes no call at all when [max_steps <= 1], and otherwise asks for the
    least multiple of 100 steps that is at least [max_steps - 1]: never
    fewer than [max_steps - 1] and up to 98 more than [max_steps]. *)
Theorem main_loop_rounds_up (max_steps : Z) :
  let calls := BeehiveApp.main_loop max_steps in
  let n := Z.to_nat ((max_steps + 98) / 100) in
  calls = rounds n 100 /\
  steps_requested calls = 100 * Z.of_nat n /\
  (max_steps <= 1 -> calls = []) /\
  (1 <= max_steps ->
   max_steps - 1 <= steps_requested calls < max_steps + 99 /\
   forall k : Z, max_steps - 1 <= 100 * k -> steps_requested calls <= 100 * k).
Proof.
  cbv zeta. rewrite main_loop_rounds, py_range_length, steps_requested_rounds.
  assert (Hn : Z.to_nat (if 1 <? max_steps then (max_steps - 1 - 1) / 100 + 1 else 0)
               = Z.to_nat ((max_steps + 98) / 100)).
  { destruct (Z.ltb_spec 1 max_steps) as [Hlt|Hge].
    - f_equal. replace (max_steps + 98) with (max_steps - 1 - 1 + 1 * 100) by lia.
      rewrite Z.div_add by lia. reflexivity.
    - assert ((max_steps + 98) / 100 <= 0); [|lia].
      apply Z.lt_succ_r. apply Z.div_lt_upper_bound; lia. }
  rewrite Hn. split; [reflexivity|]. split; [lia|]. split.
  - intros Hle. assert ((max_steps + 98) / 100 <= 0).
    { apply Z.lt_succ_r. apply Z.div_lt_upper_bound; lia. }
    replace (Z.to_nat ((max_steps + 98) / 100)) with O by lia. reflexivity.
  - intros Hge.
    assert (0 <= (max_steps + 98) / 100) by (apply Z.div_pos; lia).
    rewrite Z2Nat.id by assumption.
    pose proof (Z.div_mod (max_steps + 98) 100 ltac:(lia)) as Hdm.
    pose proof (Z.mod_pos_bound (max_steps + 98) 100 ltac:(lia)) as Hmod.
    split; [lia|]. intros k Hk. lia.
Qed.

Lemma clicked_from_Pause (w : MainWindow.t) :
  MainWindow.start_pause_button_text w = "Pause"%string ->
  MainWindow.start_pause_button_clicked w
  = {| MainWindow.start_pause_button_text := "Resume";
       MainWindow.effects :=
         (MainWindow.effects w ++ [MainWindow.print "Pausing the simulation."])
         ++ [MainWindow.simulation_pause] |}.
Proof.
  intros Ht. unfold MainWindow.start_pause_button_clicked. rewrite Ht. reflexivity.
Qed.

Lemma clicked_from_Resume (w : MainWindow.t) :
  MainWindow.start_pause_button_text w = "Resume"%string ->
  MainWindow.start_pause_button_clicked w
  = {| MainWindow.start_pause_button_text := "Pause";
       MainWindow.effects :=
         (MainWindow.effects w ++ [MainWindow.print "Resuming the simulation."])
         ++ [MainWindow.simulation_advance] |}.
Proof.
  intros Ht. unfold MainWindow.start_pause_button_clicked. rewrite Ht. reflexivity.
Qed.

Lemma calls_made_snoc_print (t : string) (es : list MainWindow.effect) (s : string)
    (e : MainWindow.effect) :
  match e with MainWindow.print _ => false | _ => true end = true ->
  calls_made {| MainWindow.start_pause_button_text := t;
                MainWindow.effects := (es ++ [MainWindow.print s]) ++ [e] |}
  = calls_made {| MainWindow.start_pause_button_text := t; MainWindow.effects := es |}
    ++ [e].
Proof.
  intros He. unfold calls_made. cbn [MainWindow.effects].
  rewrite !List.filter_app. cbn [List.filter]. rewrite He, app_nil_r. reflexivity.
Qed.

Lemma clicks_started (n : nat) :
  let w := clicks (S n) MainWindow.__init__ in
  MainWindow.start_pause_button_text w
  = (if Nat.even n then "Pause" else "Resume")%string /\
  calls_made w = MainWindow._create_simulation :: alternating (S n).
Proof.
  induction n as [|n IH]; [split; reflexivity|].
  cbv zeta in *. destruct IH as [Ht Hc].
  set (w := clicks (S n) MainWindow.__init__) in *.
  change (clicks (S (S n)) MainWindow.__init__)
    with (MainWindow.start_pause_button_clicked w).
  rewrite Nat.even_succ, <- Nat.negb_even.
  destruct (Nat.even n) eqn:En; cbn [negb].
  - rewrite (clicked_from_Pause w Ht). split; [reflexivity|].
    destruct w as [t es]. rewrite calls_made_snoc_print by reflexivity.
    cbn [MainWindow.effects] in *.
    change (calls_made {| MainWindow.start_pause_button_text := "Resume";
                          MainWindow.effects := es |})
      with (calls_made {| MainWindow.start_pause_button_text := t;
                          MainWindow.effects := es |}).
    rewrite Hc. change (alternating (S (S n)))
      with (alternating (S n)
            ++ [if Nat.even (S n) then MainWindow.simulation_advance
                else MainWindow.simulation_pause]).
    rewrite Nat.even_succ, <- Nat.negb_even, En. reflexivity.
  - rewrite (clicked_from_Resume w Ht). split; [reflexivity|].
    destruct w as [t es]. rewrite calls_made_snoc_print by reflexivity.
    cbn [MainWindow.effects] in *.
    change (calls_made {| MainWindow.start_pause_button_text := "Pause";
                          MainWindow.effects := es |})
      with (calls_made {| MainWindow.start_pause_button_text := t;
                          MainWindow.effects := es |}).
    rewrite Hc. change (alternating (S (S n)))
      with (alternating (S n)
            ++ [if Nat.even (S n) then MainWindow.simulation_advance
                else MainWindow.simulation_pause]).
    rewrite Nat.even_succ, <- Nat.negb_even, En. reflexivity.
Qed.

(** X18: from the window as constructed, the first click on the start/pause
    button labels it ["Pause"], and every later click toggles the label
    between ["Resume"] and ["Pause"]; it is never ["Start"] again.  The
    simulation is created by the first click and by no other, and the
    clicks call [advance] and [pause] in turn, [advance] first: nothing is
    ever paused twice in a row or advanced twice in a row.  A button whose
    label is none of the three makes a click print a message, call nothing
    and keep the label. *)
Theorem start_pause_button_alternates :
  (forall n : nat,
     let w := clicks n MainWindow.__init__ in
     MainWindow.start_pause_button_text w
     = match n with
       | O => "Start"
       | S _ => if Nat.odd n then "Pause" else "Resume"
       end%string /\
     calls_made w
     = match n with
       | O => []
       | S _ => MainWindow._create_simulation :: alternating n
       end) /\
  (forall w : MainWindow.t,
     let label := MainWindow.start_pause_button_text w in
     label <> "Start"%string -> label <> "Pause"%string -> label <> "Resume"%string ->
     MainWindow.start_pause_button_text (MainWindow.start_pause_button_clicked w) = label /\
     calls_made (MainWindow.start_pause_button_clicked w) = calls_made w).
Proof.
  split.
  - intros [|n]; [split; reflexivity|].
    destruct (clicks_started n) as [Ht Hc]. cbv zeta. split; [|exact Hc].
    rewrite Ht, Nat.odd_succ. reflexivity.
  - intros w label H1 H2 H3. subst label.
    unfold MainWindow.start_pause_button_clicked.
    apply String.eqb_neq in H1, H2, H3. rewrite H1, H2, H3.
    split; [reflexivity|].
    unfold calls_made. cbn [MainWindow.perform MainWindow.effects].
    rewrite List.filter_app. cbn [List.filter]. apply app_nil_r.
Qed.
